(** * Bug Report Assistant: the chat client of [public/script.js]

    A shallow embedding of the browser script: the three state variables
    ([currentImage], [isLoading], [messageHistory]), the parts of the page the
    script reads and writes, the message formatter, and the asynchronous
    [sendMessage] split at its [await] points.

    Layout-only effects (scroll position, textarea height, focus, the colour
    theme) and [console.error] are left out: no other statement of the script
    reads them. *)

From Stdlib Require Import List NArith ZArith Arith Bool String Ascii Lia.
From Stdlib Require Import DecimalString.
Import ListNotations.

Set Warnings "-register-all".

(** ** Strings

    A JavaScript string is a sequence of UTF-16 code units. *)

Definition jsstring := list N.

(** An ASCII literal of the script. *)
Definition lit (s : string) : jsstring :=
  map N_of_ascii (list_ascii_of_string s).

Fixpoint jseqb (a b : jsstring) : bool :=
  match a, b with
  | [], [] => true
  | x :: a', y :: b' => N.eqb x y && jseqb a' b'
  | _, _ => false
  end.

(** [s.startsWith(p)] *)
Fixpoint startsWith (p s : jsstring) : bool :=
  match p, s with
  | [], _ => true
  | x :: p', y :: s' => N.eqb x y && startsWith p' s'
  | _ :: _, [] => false
  end.

(** Line terminators of ECMAScript: LF, CR, LS, PS. *)
Definition isLineTerminator (c : N) : bool :=
  N.eqb c 10 || N.eqb c 13 || N.eqb c 8232 || N.eqb c 8233.

(** White space removed by [String.prototype.trim]: the WhiteSpace and
    LineTerminator productions (TAB, VT, FF, SP, NBSP, ZWNBSP, category Zs). *)
Definition isWhiteSpace (c : N) : bool :=
  N.eqb c 9 || N.eqb c 11 || N.eqb c 12 || N.eqb c 32 || N.eqb c 160
  || N.eqb c 5760 || (N.leb 8192 c && N.leb c 8202)
  || N.eqb c 8239 || N.eqb c 8287 || N.eqb c 12288 || N.eqb c 65279
  || isLineTerminator c.

Fixpoint trimStart (s : jsstring) : jsstring :=
  match s with
  | c :: s' => if isWhiteSpace c then trimStart s' else s
  | [] => []
  end.

(** [s.trim()] *)
Definition trim (s : jsstring) : jsstring :=
  rev (trimStart (rev (trimStart s))).

(** Decimal rendering of a non-negative integer, as in a template literal. *)
Definition decimal (n : nat) : jsstring :=
  lit (NilEmpty.string_of_uint (Nat.to_uint n)).

(** ** Values

    The values the script handles beyond strings come out of [JSON.parse]. A
    number is kept as the two observations the script can make of it: whether
    it is truthy (neither zero nor NaN) and its string rendering. An object is
    the list of its own properties, each key listed once. [undefined] is the
    [None] of [option json]. *)

Inductive json : Type :=
| JNull
| JBool (b : bool)
| JNum (nonzero : bool) (repr : jsstring)
| JStr (s : jsstring)
| JArr (items : list json)
| JObj (fields : list (jsstring * json)).

Fixpoint lookup (k : jsstring) (fields : list (jsstring * json)) : option json :=
  match fields with
  | [] => None
  | (k', v) :: rest => if jseqb k k' then Some v else lookup k rest
  end.

(** ToBoolean *)
Definition truthy (v : json) : bool :=
  match v with
  | JNull => false
  | JBool b => b
  | JNum nonzero _ => nonzero
  | JStr s => negb (jseqb s [])
  | JArr _ | JObj _ => true
  end.

Definition truthy_opt (v : option json) : bool :=
  match v with Some x => truthy x | None => false end.

(** ** Exceptions

    What a [throw] carries. The text of the errors the engine raises itself is
    not fixed by the language, so it is a parameter of the host. *)

Inductive Exn : Type :=
| ErrorObj (message : jsstring)   (* [new Error(m)], a rejected fetch, a failed body parse *)
| NullProperty (k : jsstring)     (* TypeError: property [k] read on [null] *)
| NotPrimitive.                   (* TypeError: object without a usable [toString] *)

Record Host : Type := {
  nullPropertyMessage : jsstring -> jsstring;
  notPrimitiveMessage : jsstring
}.

(** [error.message] *)
Definition errorMessage (h : Host) (e : Exn) : jsstring :=
  match e with
  | ErrorObj m => m
  | NullProperty k => nullPropertyMessage h k
  | NotPrimitive => notPrimitiveMessage h
  end.

Inductive result (A : Type) : Type :=
| Ok (a : A)
| Raise (e : Exn).
Arguments Ok {A} a.
Arguments Raise {A} e.

Definition bind {A B : Type} (r : result A) (f : A -> result B) : result B :=
  match r with
  | Ok a => f a
  | Raise e => Raise e
  end.

Notation "x <- r ;; k" := (bind r (fun x => k))
  (at level 61, r at next level, right associativity).

(** ToString. A parsed object inherits [Object.prototype.toString] unless it
    has an own property of that name, which cannot be callable; [valueOf]
    then yields the object itself or is shadowed as well, and the conversion
    throws. An array joins its elements with commas, [null] rendering as the
    empty string. *)
Fixpoint toString (v : json) : result jsstring :=
  match v with
  | JNull => Ok (lit "null")
  | JBool b => Ok (if b then lit "true" else lit "false")
  | JNum _ repr => Ok repr
  | JStr s => Ok s
  | JArr items =>
      (fix join (l : list json) : result jsstring :=
         match l with
         | [] => Ok []
         | x :: rest =>
             a <- match x with JNull => Ok [] | _ => toString x end ;;
             match rest with
             | [] => Ok a
             | _ :: _ => b <- join rest ;; Ok (a ++ lit "," ++ b)
             end
         end) items
  | JObj fields =>
      match lookup (lit "toString") fields with
      | Some _ => Raise NotPrimitive
      | None => Ok (lit "[object Object]")
      end
  end.

(** [v.k] for the property names the script reads ([choices], [message],
    [content], [error]): none of them is an own or inherited property of an
    array, a string, a number or a boolean. *)
Definition getField (v : json) (k : jsstring) : result (option json) :=
  match v with
  | JNull => Raise (NullProperty k)
  | JObj fields => Ok (lookup k fields)
  | _ => Ok None
  end.

(** Optional chaining [v?.k] and [v?.[0]]: [undefined] and [null]
    short-circuit to [undefined]; index 0 of an array is its first element,
    of a string its first code unit. *)
Definition optField (v : option json) (k : jsstring) : option json :=
  match v with
  | Some (JObj fields) => lookup k fields
  | _ => None
  end.

Definition optFirst (v : option json) : option json :=
  match v with
  | Some (JObj fields) => lookup (lit "0") fields
  | Some (JArr items) => match items with x :: _ => Some x | [] => None end
  | Some (JStr s) => match s with c :: _ => Some (JStr [c]) | [] => None end
  | _ => None
  end.

(** ** Message rendering *)

(** Serialisation of a text node by [innerHTML]: the HTML fragment
    serialisation algorithm escapes the ampersand, the no-break space and the
    two angle brackets. *)
Definition serializeChar (c : N) : jsstring :=
  if N.eqb c 38 then lit "&amp;"
  else if N.eqb c 160 then lit "&nbsp;"
  else if N.eqb c 60 then lit "&lt;"
  else if N.eqb c 62 then lit "&gt;"
  else [c].

Definition serializeText (s : jsstring) : jsstring :=
  flat_map serializeChar s.

(** Assignment to [textContent]: [null] clears the node, any other value is
    converted with ToString. *)
Definition toTextContent (v : json) : result jsstring :=
  match v with
  | JNull => Ok []
  | _ => toString v
  end.

(** [escapeHtml(text)] *)
Definition escapeHtml (text : json) : result jsstring :=
  s <- toTextContent text ;;
  Ok (serializeText s).

(** The lazy group of [/\*\*(.*?)\*\*/] once the opening stars are consumed:
    the shortest run of characters other than line terminators that is
    followed by two stars. Returns the group and what follows the match. *)
Fixpoint lazyGroup (s : jsstring) : option (jsstring * jsstring) :=
  match s with
  | [] => None
  | c :: s' =>
      if startsWith (lit "**") s then Some ([], skipn 2 s)
      else if isLineTerminator c then None
      else match lazyGroup s' with
           | Some (g, rest) => Some (c :: g, rest)
           | None => None
           end
  end.

(** One attempt of the pattern at the start of [s]. *)
Definition matchBold (s : jsstring) : option (jsstring * jsstring) :=
  if startsWith (lit "**") s then lazyGroup (skipn 2 s) else None.

(** [s.replace(/\*\*(.*?)\*\*/g, '<strong>$1</strong>')]: scan from the left;
    where the pattern matches, emit the replacement and resume after the
    match, otherwise copy one code unit. The fuel bounds the number of scan
    steps; the length of the subject is always enough. *)
Fixpoint replaceBoldFrom (fuel : nat) (s : jsstring) : jsstring :=
  match fuel with
  | O => s
  | S fuel' =>
      match s with
      | [] => []
      | c :: s' =>
          match matchBold s with
          | Some (g, rest) =>
              lit "<strong>" ++ g ++ lit "</strong>" ++ replaceBoldFrom fuel' rest
          | None => c :: replaceBoldFrom fuel' s'
          end
      end
  end.

Definition replaceBold (s : jsstring) : jsstring :=
  replaceBoldFrom (List.length s) s.

(** [s.replace(/\n/g, '<br>')] *)
Definition replaceNewlines (s : jsstring) : jsstring :=
  flat_map (fun c => if N.eqb c 10 then lit "<br>" else [c]) s.

(** [formatMessageText(text)] *)
Definition formatMessageText (text : json) : result jsstring :=
  formatted <- escapeHtml text ;;
  Ok (replaceNewlines (replaceBold formatted)).


(** ** The page

    The children of the messages area. [Welcome true] is the element the
    constant [welcomeMessage] refers to (the one the page is served with);
    [Welcome false] is a copy re-created by [clearChat], which that constant
    does not reach. A message element holds an optional image and an optional
    text bubble, the latter as the HTML assigned to its [innerHTML]. *)

Inductive Role : Type := user | assistant.

Inductive Node : Type :=
| Welcome (original : bool)
| Message (r : Role) (image : option jsstring) (bubble : option jsstring)
| TypingIndicator
| ErrorBubble (html : jsstring).

Record Image : Type := { base64 : jsstring; mimeType : jsstring }.

(** One element of a message's [content] array. The text of an assistant
    entry is whatever value the response carried. *)
Inductive ContentPart : Type :=
| TextPart (text : json)
| ImageUrlPart (url : jsstring).

Record Entry : Type := { role : Role; content : list ContentPart }.

Record File : Type := { type : jsstring; size : N }.

(** The state variables of the script followed by the properties of the page
    elements it reads and writes. *)
Record Page : Type := {
  currentImage : option Image;
  isLoading : bool;
  messageHistory : list Entry;
  dragCounter : Z;
  messagesArea : list Node;
  messageInput : jsstring;          (* messageInput.value *)
  sendBtnDisabled : bool;           (* sendBtn.disabled *)
  previewSrc : jsstring;            (* previewImage.src *)
  previewVisible : bool;            (* imagePreviewContainer has class visible *)
  fileInputValue : jsstring;        (* fileInput.value *)
  dropZoneVisible : bool            (* dropZoneOverlay has class visible *)
}.

Definition setCurrentImage (v : option Image) (s : Page) : Page :=
  {| currentImage := v; isLoading := isLoading s;
     messageHistory := messageHistory s; dragCounter := dragCounter s;
     messagesArea := messagesArea s; messageInput := messageInput s;
     sendBtnDisabled := sendBtnDisabled s; previewSrc := previewSrc s;
     previewVisible := previewVisible s; fileInputValue := fileInputValue s;
     dropZoneVisible := dropZoneVisible s |}.

Definition setIsLoading (v : bool) (s : Page) : Page :=
  {| currentImage := currentImage s; isLoading := v;
     messageHistory := messageHistory s; dragCounter := dragCounter s;
     messagesArea := messagesArea s; messageInput := messageInput s;
     sendBtnDisabled := sendBtnDisabled s; previewSrc := previewSrc s;
     previewVisible := previewVisible s; fileInputValue := fileInputValue s;
     dropZoneVisible := dropZoneVisible s |}.

Definition setMessageHistory (v : list Entry) (s : Page) : Page :=
  {| currentImage := currentImage s; isLoading := isLoading s;
     messageHistory := v; dragCounter := dragCounter s;
     messagesArea := messagesArea s; messageInput := messageInput s;
     sendBtnDisabled := sendBtnDisabled s; previewSrc := previewSrc s;
     previewVisible := previewVisible s; fileInputValue := fileInputValue s;
     dropZoneVisible := dropZoneVisible s |}.

Definition setDragCounter (v : Z) (s : Page) : Page :=
  {| currentImage := currentImage s; isLoading := isLoading s;
     messageHistory := messageHistory s; dragCounter := v;
     messagesArea := messagesArea s; messageInput := messageInput s;
     sendBtnDisabled := sendBtnDisabled s; previewSrc := previewSrc s;
     previewVisible := previewVisible s; fileInputValue := fileInputValue s;
     dropZoneVisible := dropZoneVisible s |}.

Definition setMessagesArea (v : list Node) (s : Page) : Page :=
  {| currentImage := currentImage s; isLoading := isLoading s;
     messageHistory := messageHistory s; dragCounter := dragCounter s;
     messagesArea := v; messageInput := messageInput s;
     sendBtnDisabled := sendBtnDisabled s; previewSrc := previewSrc s;
     previewVisible := previewVisible s; fileInputValue := fileInputValue s;
     dropZoneVisible := dropZoneVisible s |}.

Definition setMessageInput (v : jsstring) (s : Page) : Page :=
  {| currentImage := currentImage s; isLoading := isLoading s;
     messageHistory := messageHistory s; dragCounter := dragCounter s;
     messagesArea := messagesArea s; messageInput := v;
     sendBtnDisabled := sendBtnDisabled s; previewSrc := previewSrc s;
     previewVisible := previewVisible s; fileInputValue := fileInputValue s;
     dropZoneVisible := dropZoneVisible s |}.

Definition setSendBtnDisabled (v : bool) (s : Page) : Page :=
  {| currentImage := currentImage s; isLoading := isLoading s;
     messageHistory := messageHistory s; dragCounter := dragCounter s;
     messagesArea := messagesArea s; messageInput := messageInput s;
     sendBtnDisabled := v; previewSrc := previewSrc s;
     previewVisible := previewVisible s; fileInputValue := fileInputValue s;
     dropZoneVisible := dropZoneVisible s |}.

Definition setPreviewSrc (v : jsstring) (s : Page) : Page :=
  {| currentImage := currentImage s; isLoading := isLoading s;
     messageHistory := messageHistory s; dragCounter := dragCounter s;
     messagesArea := messagesArea s; messageInput := messageInput s;
     sendBtnDisabled := sendBtnDisabled s; previewSrc := v;
     previewVisible := previewVisible s; fileInputValue := fileInputValue s;
     dropZoneVisible := dropZoneVisible s |}.

Definition setPreviewVisible (v : bool) (s : Page) : Page :=
  {| currentImage := currentImage s; isLoading := isLoading s;
     messageHistory := messageHistory s; dragCounter := dragCounter s;
     messagesArea := messagesArea s; messageInput := messageInput s;
     sendBtnDisabled := sendBtnDisabled s; previewSrc := previewSrc s;
     previewVisible := v; fileInputValue := fileInputValue s;
     dropZoneVisible := dropZoneVisible s |}.

Definition setFileInputValue (v : jsstring) (s : Page) : Page :=
  {| currentImage := currentImage s; isLoading := isLoading s;
     messageHistory := messageHistory s; dragCounter := dragCounter s;
     messagesArea := messagesArea s; messageInput := messageInput s;
     sendBtnDisabled := sendBtnDisabled s; previewSrc := previewSrc s;
     previewVisible := previewVisible s; fileInputValue := v;
     dropZoneVisible := dropZoneVisible s |}.

Definition setDropZoneVisible (v : bool) (s : Page) : Page :=
  {| currentImage := currentImage s; isLoading := isLoading s;
     messageHistory := messageHistory s; dragCounter := dragCounter s;
     messagesArea := messagesArea s; messageInput := messageInput s;
     sendBtnDisabled := sendBtnDisabled s; previewSrc := previewSrc s;
     previewVisible := previewVisible s; fileInputValue := fileInputValue s;
     dropZoneVisible := v |}.

(** [messagesArea.appendChild(node)] *)
Definition appendChild (n : Node) (s : Page) : Page :=
  setMessagesArea (messagesArea s ++ [n]) s.

(** [messageHistory.push(entry)] *)
Definition pushHistory (e : Entry) (s : Page) : Page :=
  setMessageHistory (messageHistory s ++ [e]) s.

(** ** Image handling *)

(** [showErrorMessage(errorText)]: the argument is always a string built by
    the script itself. *)
Definition showErrorMessage (errorText : jsstring) (s : Page) : Page :=
  match escapeHtml (JStr errorText) with
  | Ok html => appendChild (ErrorBubble html) s
  | Raise _ => s
  end.

Definition showImagePreview (base64Data : jsstring) (s : Page) : Page :=
  setPreviewVisible true (setPreviewSrc base64Data s).

Definition removeImage (s : Page) : Page :=
  setPreviewVisible false
    (setFileInputValue [] (setPreviewSrc [] (setCurrentImage None s))).

Definition maxSize : N := 10 * 1024 * 1024.

(** [handleImageFile(file)]: the page after the synchronous part, and the
    file a [FileReader] was started on, if any. *)
Definition handleImageFile (file : File) (s : Page) : Page * option File :=
  if negb (startsWith (lit "image/") (type file)) then
    (showErrorMessage (lit "Please select a valid image file.") s, None)
  else if N.ltb maxSize (size file) then
    (showErrorMessage (lit "Image size must be less than 10MB.") s, None)
  else (s, Some file).

(** [reader.onload], with [e.target.result] the data URL read from [file]. *)
Definition reader_onload (file : File) (base64Data : jsstring) (s : Page) : Page :=
  showImagePreview base64Data
    (setCurrentImage
       (Some {| base64 := base64Data; mimeType := type file |}) s).

(** [reader.onerror] *)
Definition reader_onerror (s : Page) : Page :=
  showErrorMessage (lit "Failed to read image file.") s.

(** ** Drag and drop *)

Definition showDropZone (s : Page) : Page := setDropZoneVisible true s.
Definition hideDropZone (s : Page) : Page := setDropZoneVisible false s.

(** [handleDrop(dataTransfer)], on the list [dataTransfer.files]. *)
Definition handleDrop (files : list File) (s : Page) : Page * option File :=
  let s := hideDropZone s in
  match files with
  | file :: _ =>
      if startsWith (lit "image/") (type file) then handleImageFile file s
      else (s, None)
  | [] => (s, None)
  end.

(** ** Message elements *)

(** [createMessageElement(role, text, imageUrl)] *)
Definition createMessageElement (r : Role) (text : json)
    (imageUrl : option jsstring) : result Node :=
  let image :=
    match imageUrl with
    | Some url => if truthy (JStr url) then Some url else None
    | None => None
    end in
  if truthy text then
    html <- formatMessageText text ;;
    Ok (Message r image (Some html))
  else Ok (Message r image None).

Definition showTypingIndicator (s : Page) : Page :=
  appendChild TypingIndicator s.

Definition isTypingIndicator (n : Node) : bool :=
  match n with TypingIndicator => true | _ => false end.

(** Removal of the element [getElementById] finds: the first in document
    order. *)
Fixpoint removeFirstIndicator (l : list Node) : list Node :=
  match l with
  | [] => []
  | n :: l' => if isTypingIndicator n then l' else n :: removeFirstIndicator l'
  end.

Definition removeTypingIndicator (s : Page) : Page :=
  setMessagesArea (removeFirstIndicator (messagesArea s)) s.

Definition isOriginalWelcome (n : Node) : bool :=
  match n with Welcome true => true | _ => false end.

(** [removeWelcomeMessage()]: detaches the element held by the constant
    [welcomeMessage], if it is still in the messages area. *)
Definition removeWelcomeMessage (s : Page) : Page :=
  setMessagesArea
    (filter (fun n => negb (isOriginalWelcome n)) (messagesArea s)) s.

(** ** API communication

    [sendMessage] is an [async] function. It runs synchronously up to
    [await fetch(...)], resumes when the fetch settles, and suspends once more
    on [response.json()]. *)

Inductive Suspended : Type :=
| AwaitFetch                      (* at [await fetch(...)] *)
| AwaitErrorBody (status : nat)   (* at [await response.json().catch(...)] *)
| AwaitBody.                      (* at [await response.json()] *)

(** [response.ok] *)
Definition responseOk (status : nat) : bool :=
  Nat.leb 200 status && Nat.leb status 299.

Definition userContent (text : jsstring) (image : option Image) : list ContentPart :=
  (if truthy (JStr text) then [TextPart (JStr text)] else [])
  ++ match image with
     | Some i => [ImageUrlPart (base64 i)]
     | None => []
     end.

(** From the call to the first suspension: the page, and the [messages] of
    the request body if a request was issued. *)
Definition sendMessage (text : jsstring) (image : option Image) (s : Page)
    : Page * option (list Entry) :=
  if isLoading s then (s, None)
  else
    let s := removeWelcomeMessage s in
    let content := userContent text image in
    match createMessageElement user (JStr text) (option_map base64 image) with
    | Raise _ => (s, None)
    | Ok userMessage =>
        let s := appendChild userMessage s in
        let s := pushHistory {| role := user; content := content |} s in
        let s := setMessageInput [] s in
        let s := removeImage s in
        let s := setIsLoading true s in
        let s := setSendBtnDisabled true s in
        let s := showTypingIndicator s in
        (s, Some (messageHistory s))
    end.

(** The [catch] block. *)
Definition sendMessage_catch (h : Host) (error : Exn) (s : Page) : Page :=
  showErrorMessage (lit "Failed to send message: " ++ errorMessage h error)
    (removeTypingIndicator s).

(** The [finally] block. *)
Definition sendMessage_finally (s : Page) : Page :=
  setSendBtnDisabled false (setIsLoading false s).

(** The fetch promise rejects. *)
Definition sendMessage_fetchRejected (h : Host) (message : jsstring) (s : Page) : Page :=
  sendMessage_finally (sendMessage_catch h (ErrorObj message) s).

(** The fetch promise resolves with a response of the given status. *)
Definition sendMessage_fetchResolved (status : nat) (s : Page) : Page * Suspended :=
  (removeTypingIndicator s,
   if negb (responseOk status) then AwaitErrorBody status else AwaitBody).

(** What the [!response.ok] branch throws once the body has settled;
    [body] is [Raise] when [response.json()] rejects. *)
Definition errorResponseThrown (status : nat) (body : result json) : Exn :=
  let errorData := match body with Ok d => d | Raise _ => JObj [] end in
  match
    (field <- getField errorData (lit "error") ;;
     toString
       match field with
       | Some v =>
           if truthy v then v
           else JStr (lit "Request failed with status " ++ decimal status)
       | None => JStr (lit "Request failed with status " ++ decimal status)
       end)
  with
  | Ok message => ErrorObj message
  | Raise e => e
  end.

Definition sendMessage_errorBody (h : Host) (status : nat) (body : result json)
    (s : Page) : Page :=
  sendMessage_finally (sendMessage_catch h (errorResponseThrown status body) s).

(** [data.choices?.[0]?.message?.content || 'No response received.'] *)
Definition assistantContentOf (data : json) : result json :=
  choices <- getField data (lit "choices") ;;
  let content :=
    optField (optField (optFirst choices) (lit "message")) (lit "content") in
  Ok match content with
     | Some v => if truthy v then v else JStr (lit "No response received.")
     | None => JStr (lit "No response received.")
     end.

(** The body of a 2xx response settles. *)
Definition sendMessage_body (h : Host) (body : result json) (s : Page) : Page :=
  sendMessage_finally
    match (data <- body ;; assistantContentOf data) with
    | Raise e => sendMessage_catch h e s
    | Ok assistantContent =>
        let s :=
          pushHistory
            {| role := assistant; content := [TextPart assistantContent] |} s in
        match createMessageElement assistant assistantContent None with
        | Raise e => sendMessage_catch h e s
        | Ok assistantMessage => appendChild assistantMessage s
        end
    end.

(** ** Clear chat and form submission *)

Definition clearChat (s : Page) : Page :=
  let s := setMessageHistory [] s in
  let s := setMessagesArea [] s in
  let s := setMessagesArea [Welcome false] s in
  let s := removeImage s in
  setMessageInput [] s.

Definition handleSubmit (s : Page) : Page * option (list Entry) :=
  let text := trim (messageInput s) in
  if negb (truthy (JStr text))
     && match currentImage s with None => true | Some _ => false end
  then (s, None)
  else sendMessage text (currentImage s) s.

(** ** The event loop

    The page together with what is outstanding: the suspended calls of
    [sendMessage], the file readers still reading, and the log of the
    request bodies posted to [/api/chat]. *)

Record Sys : Type := {
  page : Page;
  sends : list Suspended;
  readers : list File;
  posted : list (list Entry)
}.

Definition setPage (p : Page) (y : Sys) : Sys :=
  {| page := p; sends := sends y; readers := readers y; posted := posted y |}.

Definition setSends (l : list Suspended) (y : Sys) : Sys :=
  {| page := page y; sends := l; readers := readers y; posted := posted y |}.

Definition setReaders (l : list File) (y : Sys) : Sys :=
  {| page := page y; sends := sends y; readers := l; posted := posted y |}.

Definition setPosted (l : list (list Entry)) (y : Sys) : Sys :=
  {| page := page y; sends := sends y; readers := readers y; posted := l |}.

Fixpoint removeAt {A : Type} (i : nat) (l : list A) : list A :=
  match l, i with
  | [], _ => []
  | _ :: l', O => l'
  | x :: l', S i' => x :: removeAt i' l'
  end.

Fixpoint replaceAt {A : Type} (i : nat) (y : A) (l : list A) : list A :=
  match l, i with
  | [], _ => []
  | _ :: l', O => y :: l'
  | x :: l', S i' => x :: replaceAt i' y l'
  end.

Inductive Event : Type :=
| Input (text : jsstring)                      (* the user edits the textarea *)
| Submit                                       (* click on send, or Enter *)
| FetchRejected (i : nat) (message : jsstring)
| FetchResolved (i : nat) (status : nat)
| BodySettled (i : nat) (body : result json)   (* [response.json()] settles *)
| FileChange (value : jsstring) (files : list File)
| Drop (onOverlay : bool) (files : list File)
| ReaderLoad (i : nat) (base64Data : jsstring)
| ReaderError (i : nat)
| RemoveImageClick
| ClearChatClick
| DragEnter (hasFiles : bool)
| DragLeave.

(** A started reader joins the outstanding ones. *)
Definition withReader (r : Page * option File) (y : Sys) : Sys :=
  match snd r with
  | Some f => setReaders (readers y ++ [f]) (setPage (fst r) y)
  | None => setPage (fst r) y
  end.

(** The [drop] listener shared by the document and the overlay. *)
Definition dropListener (files : list File) (y : Sys) : Sys :=
  withReader (handleDrop files (setDragCounter 0%Z (page y))) y.

(** One turn of the event loop; [None] when the event cannot occur (there is
    no such suspended call or reader). *)
Definition step (h : Host) (ev : Event) (y : Sys) : option Sys :=
  match ev with
  | Input text => Some (setPage (setMessageInput text (page y)) y)
  | Submit =>
      let r := handleSubmit (page y) in
      Some match snd r with
           | Some body =>
               setPosted (posted y ++ [body])
                 (setSends (sends y ++ [AwaitFetch]) (setPage (fst r) y))
           | None => setPage (fst r) y
           end
  | FetchRejected i message =>
      match nth_error (sends y) i with
      | Some AwaitFetch =>
          Some (setSends (removeAt i (sends y))
                  (setPage (sendMessage_fetchRejected h message (page y)) y))
      | _ => None
      end
  | FetchResolved i status =>
      match nth_error (sends y) i with
      | Some AwaitFetch =>
          let r := sendMessage_fetchResolved status (page y) in
          Some (setSends (replaceAt i (snd r) (sends y)) (setPage (fst r) y))
      | _ => None
      end
  | BodySettled i body =>
      match nth_error (sends y) i with
      | Some (AwaitErrorBody status) =>
          Some (setSends (removeAt i (sends y))
                  (setPage (sendMessage_errorBody h status body (page y)) y))
      | Some AwaitBody =>
          Some (setSends (removeAt i (sends y))
                  (setPage (sendMessage_body h body (page y)) y))
      | _ => None
      end
  | FileChange value files =>
      let p := setFileInputValue value (page y) in
      Some match files with
           | file :: _ => withReader (handleImageFile file p) y
           | [] => setPage p y
           end
  | Drop onOverlay files =>
      (* a drop on the overlay runs its listener, then bubbles to the document *)
      Some (if onOverlay then dropListener files (dropListener files y)
            else dropListener files y)
  | ReaderLoad i base64Data =>
      match nth_error (readers y) i with
      | Some file =>
          Some (setReaders (removeAt i (readers y))
                  (setPage (reader_onload file base64Data (page y)) y))
      | None => None
      end
  | ReaderError i =>
      match nth_error (readers y) i with
      | Some _ =>
          Some (setReaders (removeAt i (readers y))
                  (setPage (reader_onerror (page y)) y))
      | None => None
      end
  | RemoveImageClick => Some (setPage (removeImage (page y)) y)
  | ClearChatClick => Some (setPage (clearChat (page y)) y)
  | DragEnter hasFiles =>
      let p := setDragCounter (dragCounter (page y) + 1)%Z (page y) in
      Some (setPage (if hasFiles then showDropZone p else p) y)
  | DragLeave =>
      let p := setDragCounter (dragCounter (page y) - 1)%Z (page y) in
      Some (setPage (if Z.eqb (dragCounter p) 0 then hideDropZone p else p) y)
  end.

Fixpoint run (h : Host) (evs : list Event) (y : Sys) : option Sys :=
  match evs with
  | [] => Some y
  | ev :: evs' =>
      match step h ev y with
      | Some y' => run h evs' y'
      | None => None
      end
  end.

(** The page as it is served, before any event: nothing attached, nothing
    sent, and the welcome placeholder as the only child of the messages
    area. *)
Definition initialPage : Page :=
  {| currentImage := None; isLoading := false; messageHistory := [];
     dragCounter := 0%Z; messagesArea := [Welcome true]; messageInput := [];
     sendBtnDisabled := false; previewSrc := []; previewVisible := false;
     fileInputValue := []; dropZoneVisible := false |}.

Definition initial : Sys :=
  {| page := initialPage; sends := []; readers := []; posted := [] |}.

(** The state after a run from the initial page (the initial state itself if
    the run cannot occur). *)
Definition after (h : Host) (evs : list Event) : Sys :=
  match run h evs initial with
  | Some y => y
  | None => initial
  end.

(** The error texts of V8, for evaluating the model on concrete runs. *)
Definition v8 : Host :=
  {| nullPropertyMessage := fun k =>
       lit "Cannot read properties of null (reading '" ++ k ++ lit "')";
     notPrimitiveMessage := lit "Cannot convert object to primitive value" |}.

Definition typingCount (l : list Node) : nat :=
  List.length (filter isTypingIndicator l).

Definition roles (l : list Entry) : list Role := map role l.


(** ** Invariant of the event loop

    At most one call of [sendMessage] is suspended; [isLoading] is set exactly
    while there is one; a typing indicator is shown only while that call
    waits for the fetch, and then at most one. *)
Definition Inv (y : Sys) : Prop :=
  match sends y with
  | [] =>
      isLoading (page y) = false /\ typingCount (messagesArea (page y)) = 0
  | [AwaitFetch] =>
      isLoading (page y) = true /\ typingCount (messagesArea (page y)) <= 1
  | [_] =>
      isLoading (page y) = true /\ typingCount (messagesArea (page y)) = 0
  | _ => False
  end.

(** ** Inert markup

    The tags the formatter itself writes, and the strings in which every
    angle bracket belongs to one of them: assigned to [innerHTML], such a
    string creates no element other than [strong] and [br]. *)
Definition formatterTags : list jsstring :=
  [lit "<strong>"; lit "</strong>"; lit "<br>"].

Definition noAngle (c : N) : bool :=
  negb (N.eqb c 60) && negb (N.eqb c 62).

Inductive Inert : jsstring -> Prop :=
| Inert_nil : Inert []
| Inert_char (c : N) (s : jsstring) :
    noAngle c = true -> Inert s -> Inert (c :: s)
| Inert_tag (t s : jsstring) :
    In t formatterTags -> Inert s -> Inert (t ++ s).

(** ** Sample states *)

Definition blankInput : Sys :=
  setPage (setMessageInput (lit "   ") initialPage) initial.

Definition pngFile : File := {| type := lit "image/png"; size := 10485760 |}.
Definition hugeFile : File := {| type := lit "image/png"; size := 10485761 |}.
Definition textFile : File := {| type := lit "text/plain"; size := 12 |}.

Definition attached : Sys :=
  after v8 [FileChange (lit "shot.png") [pngFile];
            ReaderLoad 0 (lit "data:image/png;base64,AAAA");
            FileChange (lit "other.png") [pngFile]].

(** The exchange of the first scenario: a text-only report and a completion
    that carries a summary. *)
Definition reportSent : list Event :=
  [Input (lit "button is broken"); Submit; FetchResolved 0 200].

Definition completionBody : json :=
  JObj [(lit "choices",
         JArr [JObj [(lit "message",
                      JObj [(lit "content", JStr (lit "Summary: ..."))])]])].

(** The exchange of the second scenario: the proxy answers 500. *)
Definition reportRefused : list Event :=
  [Input (lit "button is broken"); Submit; FetchResolved 0 500].

Definition rateLimited : json :=
  JObj [(lit "error", JStr (lit "rate limited"))].

Definition awaiting : Sys := after v8 [Input (lit "hello"); Submit].

(** ** Theme management

    The two places the theme lives in: the [theme] key of [localStorage]
    ([None] when [getItem] returns [null]) and the [data-theme] attribute of
    the root element ([None] when the attribute is absent). *)

Record Theme : Type := {
  storedTheme : option jsstring;
  dataTheme : option jsstring
}.

(** [initializeTheme()], given what the [prefers-color-scheme: dark] media
    query reports. *)
Definition initializeTheme (systemPrefersDark : bool) (t : Theme) : Theme :=
  match storedTheme t with
  | Some savedTheme =>
      if truthy (JStr savedTheme) then
        {| storedTheme := storedTheme t; dataTheme := Some savedTheme |}
      else if systemPrefersDark then
        {| storedTheme := storedTheme t; dataTheme := Some (lit "dark") |}
      else t
  | None =>
      if systemPrefersDark then
        {| storedTheme := storedTheme t; dataTheme := Some (lit "dark") |}
      else t
  end.

(** [toggleTheme()] *)
Definition toggleTheme (t : Theme) : Theme :=
  let newTheme :=
    match dataTheme t with
    | Some currentTheme =>
        if jseqb currentTheme (lit "dark") then lit "light" else lit "dark"
    | None => lit "dark"
    end in
  {| storedTheme := Some newTheme; dataTheme := Some newTheme |}.

(** The listener for changes of the system colour scheme; [matches] is
    [e.matches]. *)
Definition systemThemeChanged (matches : bool) (t : Theme) : Theme :=
  if negb (truthy_opt (option_map JStr (storedTheme t))) then
    {| storedTheme := storedTheme t;
       dataTheme := Some (if matches then lit "dark" else lit "light") |}
  else t.

Inductive ThemeEvent : Type :=
| ToggleClick
| SystemChange (matches : bool).

Definition themeStep (ev : ThemeEvent) (t : Theme) : Theme :=
  match ev with
  | ToggleClick => toggleTheme t
  | SystemChange matches => systemThemeChanged matches t
  end.

Definition themeRun (evs : list ThemeEvent) (t : Theme) : Theme :=
  fold_left (fun t ev => themeStep ev t) evs t.

(** ** Vocabulary of the further properties *)

(** A drag of files across the page, as the events it fires: [true] for a
    [dragenter], [false] for a [dragleave]. *)
Definition dragEvents (l : list bool) : list Event :=
  map (fun enter : bool => if enter then DragEnter true else DragLeave) l.

(** The number of elements entered and not yet left after the drag [l],
    starting inside [depth] of them; [None] if the drag leaves an element it
    never entered. *)
Fixpoint dragDepth (depth : nat) (l : list bool) : option nat :=
  match l with
  | [] => Some depth
  | true :: l' => dragDepth (S depth) l'
  | false :: l' =>
      match depth with
      | O => None
      | S d => dragDepth d l'
      end
  end.

(** A character that may stand inside a bold span: neither a star nor a
    line terminator. *)
Definition spanChar (c : N) : bool :=
  negb (N.eqb c 42) && negb (isLineTerminator c).

(** A character the formatter passes through as it is. *)
Definition plainChar (c : N) : bool :=
  negb (N.eqb c 38) && negb (N.eqb c 160) && negb (N.eqb c 60)
  && negb (N.eqb c 62) && negb (N.eqb c 42) && negb (N.eqb c 10).

(** Well-formed output of the formatter: text without angle brackets and
    line feeds, [br] elements, and [strong] elements that are closed, do
    not nest, and hold text of a single line. *)
Inductive Balanced : jsstring -> Prop :=
| Balanced_nil : Balanced []
| Balanced_char (c : N) (s : jsstring) :
    noAngle c = true -> N.eqb c 10 = false -> Balanced s -> Balanced (c :: s)
| Balanced_br (s : jsstring) :
    Balanced s -> Balanced (lit "<br>" ++ s)
| Balanced_strong (g s : jsstring) :
    forallb noAngle g = true ->
    forallb (fun c => negb (isLineTerminator c)) g = true ->
    Balanced s ->
    Balanced (lit "<strong>" ++ g ++ lit "</strong>" ++ s).

(** No two assistant entries in a row. *)
Fixpoint alternating (l : list Role) : bool :=
  match l with
  | assistant :: ((assistant :: _) as l') => false
  | _ :: l' => alternating l'
  | [] => true
  end.

Definition endsWithUser (body : list Entry) : bool :=
  match rev body with
  | e :: _ => match role e with user => true | assistant => false end
  | [] => false
  end.

(** The preview shows the attached image, and nothing when none is
    attached. *)
Definition previewMirrors (s : Page) : Prop :=
  match currentImage s with
  | Some i => previewVisible s = true /\ previewSrc s = base64 i
  | None => previewVisible s = false /\ previewSrc s = []
  end.

(** The entry, if any, is by the assistant. *)
Definition lastIsAssistant (l : list Entry) : bool :=
  match last (roles l) user with
  | assistant => true
  | user => false
  end.

(** The flags, the attachment with its preview, and the history agree
    between two pages. *)
Definition sameCore (s s' : Page) : Prop :=
  isLoading s' = isLoading s /\
  sendBtnDisabled s' = sendBtnDisabled s /\
  currentImage s' = currentImage s /\
  previewSrc s' = previewSrc s /\
  previewVisible s' = previewVisible s /\
  messageHistory s' = messageHistory s.

(** What holds of every state the page can reach, beside [Inv]. *)
Definition Inv2 (y : Sys) : Prop :=
  sendBtnDisabled (page y) = isLoading (page y) /\
  previewMirrors (page y) /\
  forallb endsWithUser (posted y) = true /\
  forallb (fun body => alternating (roles body)) (posted y) = true /\
  alternating (roles (messageHistory (page y))) = true /\
  (isLoading (page y) = true -> lastIsAssistant (messageHistory (page y)) = false).

(** Sample states of the further properties. *)
Definition blankLines : Sys :=
  setPage (setMessageInput [32; 9; 10; 160; 13; 8232]%N initialPage) initial.

Definition spacedInput : Sys := after v8 [Input (lit "  button is broken  ")].

Definition attachedRun : list Event :=
  [FileChange (lit "shot.png") [pngFile];
   ReaderLoad 0 (lit "data:image/png;base64,AAAA");
   FileChange (lit "other.png") [pngFile]].

(** A refused request followed by an answered one. *)
Definition twoExchanges : list Event :=
  reportRefused ++ [BodySettled 0 (Ok rateLimited);
                    Input (lit "again"); Submit; FetchResolved 0 200;
                    BodySettled 0 (Ok completionBody)].

(** * Properties *)

(** ** Records and lists *)

Lemma setPage_page (y : Sys) : setPage (page y) y = y.
Proof. destruct y; reflexivity. Qed.

Lemma typingCount_app (a b : list Node) :
  typingCount (a ++ b) = typingCount a + typingCount b.
Proof. unfold typingCount. now rewrite filter_app, length_app. Qed.

Lemma typingCount_removeFirst (l : list Node) :
  typingCount (removeFirstIndicator l) = pred (typingCount l).
Proof.
  induction l as [|n l IH]; [reflexivity|].
  unfold typingCount in *. simpl.
  destruct (isTypingIndicator n) eqn:E; simpl.
  - reflexivity.
  - now rewrite E.
Qed.

Lemma removeFirstIndicator_absent (l : list Node) :
  typingCount l = 0 -> removeFirstIndicator l = l.
Proof.
  induction l as [|n l IH]; [reflexivity|].
  unfold typingCount in *. simpl.
  destruct (isTypingIndicator n); simpl; [discriminate|].
  intros H. now rewrite IH.
Qed.

Lemma typingCount_removeWelcome (l : list Node) :
  typingCount (filter (fun n => negb (isOriginalWelcome n)) l) = typingCount l.
Proof.
  induction l as [|n l IH]; [reflexivity|].
  unfold typingCount in *. simpl.
  destruct n as [[|]| | |]; simpl; auto.
Qed.

Lemma messagesArea_showErrorMessage (t : jsstring) (s : Page) :
  messagesArea (showErrorMessage t s)
  = messagesArea s ++ [ErrorBubble (serializeText t)].
Proof. reflexivity. Qed.

(** ** Form submission *)

(** C2. When the trimmed input text is empty and no image is attached,
    submitting does nothing: the page (history and rendered messages
    included) is unchanged and no request is posted. *)
Theorem handleSubmit_empty_noop (h : Host) (y : Sys) :
  trim (messageInput (page y)) = [] ->
  currentImage (page y) = None ->
  handleSubmit (page y) = (page y, None) /\ step h Submit y = Some y.
Proof.
  intros Ht Hi.
  assert (E : handleSubmit (page y) = (page y, None)).
  { unfold handleSubmit. rewrite Ht, Hi. reflexivity. }
  split; [exact E|].
  unfold step. rewrite E. simpl. now rewrite setPage_page.
Qed.

Lemma handleSubmit_empty_noop_witness :
  trim (messageInput (page blankInput)) = [] /\
  currentImage (page blankInput) = None /\
  handleSubmit (page blankInput) = (page blankInput, None) /\
  step v8 Submit blankInput = Some blankInput.
Proof.
  split; [reflexivity|]. split; [reflexivity|].
  apply (@handleSubmit_empty_noop v8 blankInput); reflexivity.
Defined.

(** ** The invariant *)

Lemma Inv_initial : Inv initial.
Proof. split; reflexivity. Qed.

Lemma sendMessage_loading (text : jsstring) (image : option Image) (s : Page) :
  isLoading s = true -> sendMessage text image s = (s, None).
Proof. intros H. unfold sendMessage. now rewrite H. Qed.

Lemma handleSubmit_loading (s : Page) :
  isLoading s = true -> handleSubmit s = (s, None).
Proof.
  intros H. unfold handleSubmit.
  destruct (_ && _); [reflexivity|]. now apply sendMessage_loading.
Qed.

Lemma formatMessageText_string (t : jsstring) :
  formatMessageText (JStr t)
  = Ok (replaceNewlines (replaceBold (serializeText t))).
Proof. reflexivity. Qed.

Lemma createMessageElement_string (r : Role) (t : jsstring) (u : option jsstring) :
  exists image bubble, createMessageElement r (JStr t) u = Ok (Message r image bubble).
Proof.
  unfold createMessageElement.
  destruct (truthy (JStr t)); simpl; eauto.
Qed.

(** What a call that passes the guard does to the flag, the history, the
    indicator count and the request. *)
Lemma sendMessage_idle (text : jsstring) (image : option Image) (s : Page) :
  isLoading s = false ->
  exists s',
    sendMessage text image s = (s', Some (messageHistory s')) /\
    isLoading s' = true /\
    messageHistory s'
    = messageHistory s ++ [{| role := user; content := userContent text image |}] /\
    typingCount (messagesArea s') = S (typingCount (messagesArea s)).
Proof.
  intros H. unfold sendMessage. rewrite H.
  destruct (createMessageElement_string user text (option_map base64 image))
    as (im & bu & E).
  rewrite E. eexists. split; [reflexivity|].
  split; [reflexivity|]. split; [reflexivity|].
  simpl. rewrite !typingCount_app, typingCount_removeWelcome. simpl.
  unfold typingCount at 2 3. simpl. lia.
Qed.

Lemma handleSubmit_cases (s : Page) :
  handleSubmit s = (s, None) \/
  (isLoading s = false /\
   exists s', handleSubmit s = (s', Some (messageHistory s')) /\
     isLoading s' = true /\
     typingCount (messagesArea s') = S (typingCount (messagesArea s))).
Proof.
  destruct (isLoading s) eqn:L.
  - left. now apply handleSubmit_loading.
  - unfold handleSubmit. destruct (_ && _); [now left|].
    right. split; [reflexivity|].
    destruct (sendMessage_idle (trim (messageInput s)) (currentImage s) s L)
      as (s' & E & L' & _ & T).
    exists s'. auto.
Qed.

Lemma handleImageFile_obs (file : File) (s : Page) :
  isLoading (fst (handleImageFile file s)) = isLoading s /\
  typingCount (messagesArea (fst (handleImageFile file s)))
  = typingCount (messagesArea s).
Proof.
  unfold handleImageFile.
  destruct (negb _); [|destruct (N.ltb _ _)]; simpl; split; try reflexivity;
    rewrite typingCount_app; simpl; unfold typingCount at 2; simpl; lia.
Qed.

Lemma handleDrop_obs (files : list File) (s : Page) :
  isLoading (fst (handleDrop files s)) = isLoading s /\
  typingCount (messagesArea (fst (handleDrop files s)))
  = typingCount (messagesArea s).
Proof.
  unfold handleDrop. destruct files as [|f fs]; [now split|].
  destruct (startsWith _ _); [|now split].
  apply (handleImageFile_obs f (hideDropZone s)).
Qed.

Lemma sendMessage_catch_obs (h : Host) (e : Exn) (s : Page) :
  isLoading (sendMessage_catch h e s) = isLoading s /\
  messageHistory (sendMessage_catch h e s) = messageHistory s /\
  typingCount (messagesArea (sendMessage_catch h e s))
  = pred (typingCount (messagesArea s)).
Proof.
  unfold sendMessage_catch. rewrite messagesArea_showErrorMessage.
  split; [reflexivity|]. split; [reflexivity|].
  rewrite typingCount_app. simpl. rewrite typingCount_removeFirst.
  unfold typingCount at 2. simpl. lia.
Qed.

Lemma sendMessage_fetchRejected_obs (h : Host) (m : jsstring) (s : Page) :
  isLoading (sendMessage_fetchRejected h m s) = false /\
  messageHistory (sendMessage_fetchRejected h m s) = messageHistory s /\
  typingCount (messagesArea (sendMessage_fetchRejected h m s))
  = pred (typingCount (messagesArea s)).
Proof.
  destruct (sendMessage_catch_obs h (ErrorObj m) s) as (_ & H & T).
  split; [reflexivity|]. split; assumption.
Qed.

Lemma sendMessage_fetchResolved_obs (status : nat) (s : Page) :
  isLoading (fst (sendMessage_fetchResolved status s)) = isLoading s /\
  messageHistory (fst (sendMessage_fetchResolved status s)) = messageHistory s /\
  typingCount (messagesArea (fst (sendMessage_fetchResolved status s)))
  = pred (typingCount (messagesArea s)).
Proof.
  split; [reflexivity|]. split; [reflexivity|].
  apply typingCount_removeFirst.
Qed.

Lemma sendMessage_errorBody_obs (h : Host) (status : nat) (body : result json)
    (s : Page) :
  isLoading (sendMessage_errorBody h status body s) = false /\
  messageHistory (sendMessage_errorBody h status body s) = messageHistory s /\
  typingCount (messagesArea (sendMessage_errorBody h status body s))
  = pred (typingCount (messagesArea s)).
Proof.
  destruct (sendMessage_catch_obs h (errorResponseThrown status body) s)
    as (_ & H & T).
  split; [reflexivity|]. split; assumption.
Qed.

Lemma sendMessage_body_obs (h : Host) (body : result json) (s : Page) :
  isLoading (sendMessage_body h body s) = false /\
  typingCount (messagesArea (sendMessage_body h body s))
  <= typingCount (messagesArea s).
Proof.
  unfold sendMessage_body.
  destruct (data <- body ;; assistantContentOf data) as [c|e].
  - destruct (createMessageElement assistant c None) as [[ | r im bu | | ]|e] eqn:E.
    1,3,4: unfold createMessageElement in E;
      destruct (truthy c); [destruct (formatMessageText c)|]; discriminate.
    + split; [reflexivity|]. simpl. rewrite typingCount_app.
      unfold typingCount at 2. simpl. lia.
    + split; [reflexivity|].
      destruct (sendMessage_catch_obs h e
        (pushHistory {| role := assistant; content := [TextPart c] |} s))
        as (_ & _ & T).
      simpl in *. rewrite T. simpl. lia.
  - split; [reflexivity|].
    destruct (sendMessage_catch_obs h e s) as (_ & _ & T).
    simpl in *. rewrite T. lia.
Qed.

(** Events that leave the suspended calls and the flag alone and add no
    indicator preserve the invariant. *)
Lemma Inv_frame (y y' : Sys) :
  sends y' = sends y ->
  isLoading (page y') = isLoading (page y) ->
  typingCount (messagesArea (page y')) <= typingCount (messagesArea (page y)) ->
  Inv y -> Inv y'.
Proof.
  unfold Inv. intros -> -> T.
  destruct (sends y) as [|[| |] [|]]; intuition lia.
Qed.

Lemma withReader_frame (r : Page * option File) (y : Sys) :
  sends (withReader r y) = sends y /\ page (withReader r y) = fst r.
Proof. unfold withReader. destruct (snd r); now split. Qed.

Lemma dropListener_frame (files : list File) (y : Sys) :
  sends (dropListener files y) = sends y /\
  isLoading (page (dropListener files y)) = isLoading (page y) /\
  typingCount (messagesArea (page (dropListener files y)))
  = typingCount (messagesArea (page y)).
Proof.
  unfold dropListener.
  destruct (withReader_frame
    (handleDrop files (setDragCounter 0%Z (page y))) y) as [-> ->].
  destruct (handleDrop_obs files (setDragCounter 0%Z (page y))) as [-> ->].
  now split.
Qed.

Lemma Inv_sends (y : Sys) (i : nat) (k : Suspended) :
  Inv y -> nth_error (sends y) i = Some k -> i = 0 /\ sends y = [k].
Proof.
  unfold Inv. intros I E.
  destruct (sends y) as [|k0 [|k1 l]].
  - destruct i; discriminate.
  - destruct i as [|[|i]]; try discriminate. now injection E as ->.
  - destruct k0; contradiction.
Qed.

(** An event whose step is a plain update of the page: reduce to the frame
    lemma. *)
Ltac framed S I := injection S as <-; revert I; apply Inv_frame.

Lemma step_Inv (h : Host) (ev : Event) (y y' : Sys) :
  Inv y -> step h ev y = Some y' -> Inv y'.
Proof.
  intros I S. destruct ev; simpl in S.
  - (* Input *)
    now framed S I.
  - (* Submit *)
    injection S as <-.
    destruct (handleSubmit_cases (page y)) as [E|(L & s' & E & L' & T)];
      rewrite E; simpl.
    + now rewrite setPage_page.
    + unfold Inv in *. simpl.
      destruct (sends y) as [|k l]; simpl.
      * destruct I as [_ I]. rewrite I in T. split; [assumption|lia].
      * destruct k, l; simpl in I; try contradiction;
          destruct I as [I _]; congruence.
  - (* FetchRejected *)
    destruct (nth_error (sends y) i) as [[| |]|] eqn:E; try discriminate.
    injection S as <-.
    destruct (Inv_sends y i _ I E) as [-> Es].
    destruct (sendMessage_fetchRejected_obs h message (page y)) as (L & _ & T).
    unfold Inv in *. cbn [sends setSends setPage page]. rewrite Es in *.
    cbn [removeAt]. split; [assumption|lia].
  - (* FetchResolved *)
    destruct (nth_error (sends y) i) as [[| |]|] eqn:E; try discriminate.
    injection S as <-.
    destruct (Inv_sends y i _ I E) as [-> Es].
    destruct (sendMessage_fetchResolved_obs status (page y)) as (L & _ & T).
    unfold Inv in *. cbn [sends setSends setPage page]. rewrite Es in *.
    cbn [replaceAt]. cbn [sendMessage_fetchResolved fst] in L, T.
    rewrite <- L in I.
    destruct (negb (responseOk status)); (split; [tauto|lia]).
  - (* BodySettled *)
    destruct (nth_error (sends y) i) as [[| |]|] eqn:E; try discriminate;
      injection S as <-;
      destruct (Inv_sends y i _ I E) as [-> Es].
    + destruct (sendMessage_errorBody_obs h status body (page y)) as (L & _ & T).
      unfold Inv in *. cbn [sends setSends setPage page]. rewrite Es in *.
      cbn [removeAt]. split; [assumption|lia].
    + destruct (sendMessage_body_obs h body (page y)) as [L T].
      unfold Inv in *. cbn [sends setSends setPage page]. rewrite Es in *.
      cbn [removeAt]. split; [assumption|lia].
  - (* FileChange *)
    injection S as <-. revert I.
    destruct files as [|f fs]; [now apply Inv_frame|].
    destruct (withReader_frame
      (handleImageFile f (setFileInputValue value (page y))) y) as [Es Ep].
    destruct (handleImageFile_obs f (setFileInputValue value (page y))) as [L T].
    apply Inv_frame; rewrite ?Ep; auto. rewrite T. simpl. lia.
  - (* Drop *)
    injection S as <-. revert I.
    destruct (dropListener_frame files y) as (E1 & L1 & T1).
    destruct onOverlay.
    + destruct (dropListener_frame files (dropListener files y)) as (E2 & L2 & T2).
      apply Inv_frame; [congruence|congruence|lia].
    + apply Inv_frame; [congruence|congruence|lia].
  - (* ReaderLoad *)
    destruct (nth_error (readers y) i); [|discriminate].
    now framed S I.
  - (* ReaderError *)
    destruct (nth_error (readers y) i); [|discriminate].
    framed S I; try reflexivity.
    simpl. rewrite typingCount_app. unfold typingCount at 2. simpl. lia.
  - (* RemoveImageClick *)
    now framed S I.
  - (* ClearChatClick *)
    framed S I; try reflexivity.
    simpl. unfold typingCount at 1. simpl. lia.
  - (* DragEnter *)
    injection S as <-. destruct hasFiles; revert I; now apply Inv_frame.
  - (* DragLeave *)
    injection S as <-. revert I.
    destruct (Z.eqb _ _); now apply Inv_frame.
Qed.

Lemma run_Inv (h : Host) (evs : list Event) :
  forall y y', Inv y -> run h evs y = Some y' -> Inv y'.
Proof.
  induction evs as [|ev evs IH]; simpl; intros y y' I R.
  - now injection R as <-.
  - destruct (step h ev y) as [y1|] eqn:S; [|discriminate].
    eapply IH; [|exact R]. eapply step_Inv; eassumption.
Qed.

Lemma reachable_Inv (h : Host) (evs : list Event) (y : Sys) :
  run h evs initial = Some y -> Inv y.
Proof. apply run_Inv, Inv_initial. Qed.

(** ** The in-flight guard *)

(** C3. While [isLoading] is set, submitting changes nothing at all: the
    page is the same, no user entry is appended, no request is posted and
    nothing is queued. Consequently no run of the page ever has more than one
    suspended call of [sendMessage]. *)
Theorem submit_while_loading_dropped (h : Host) :
  (forall y : Sys,
      isLoading (page y) = true ->
      handleSubmit (page y) = (page y, None) /\ step h Submit y = Some y) /\
  (forall (evs : list Event) (y : Sys),
      run h evs initial = Some y -> List.length (sends y) <= 1).
Proof.
  split.
  - intros y L.
    pose proof (handleSubmit_loading (page y) L) as E.
    split; [exact E|].
    unfold step. rewrite E. cbn [snd fst]. now rewrite setPage_page.
  - intros evs y R. apply reachable_Inv in R. unfold Inv in R.
    destruct (sends y) as [|k [|k' l]]; simpl; try lia.
    destruct k; contradiction.
Qed.

Lemma submit_while_loading_dropped_witness :
  isLoading (page awaiting) = true /\
  run v8 [Input (lit "hello"); Submit] initial = Some awaiting /\
  step v8 Submit awaiting = Some awaiting /\
  List.length (sends awaiting) <= 1.
Proof.
  destruct (submit_while_loading_dropped v8) as [H1 H2].
  split; [reflexivity|]. split; [reflexivity|]. split.
  - apply (H1 awaiting). reflexivity.
  - apply (H2 [Input (lit "hello"); Submit] awaiting). reflexivity.
Defined.

(** ** Attaching an image *)

(** C4. A file whose type does not start with [image/] is refused with the
    invalid-type message; otherwise a file larger than 10 * 1024 * 1024 bytes
    is refused with the size message; neither touches [currentImage] nor
    starts a reader. Any other file is handed to a reader, and when the read
    completes [currentImage] holds exactly that file's data and type,
    whatever was attached before. *)
Theorem handleImageFile_validation (file : File) (s : Page) :
  maxSize = 10485760%N /\
  (startsWith (lit "image/") (type file) = false ->
     handleImageFile file s
     = (showErrorMessage (lit "Please select a valid image file.") s, None) /\
     messagesArea (fst (handleImageFile file s))
     = messagesArea s ++ [ErrorBubble (lit "Please select a valid image file.")] /\
     currentImage (fst (handleImageFile file s)) = currentImage s) /\
  (startsWith (lit "image/") (type file) = true ->
   (maxSize < size file)%N ->
     handleImageFile file s
     = (showErrorMessage (lit "Image size must be less than 10MB.") s, None) /\
     messagesArea (fst (handleImageFile file s))
     = messagesArea s ++ [ErrorBubble (lit "Image size must be less than 10MB.")] /\
     currentImage (fst (handleImageFile file s)) = currentImage s) /\
  (startsWith (lit "image/") (type file) = true ->
   (size file <= maxSize)%N ->
     handleImageFile file s = (s, Some file) /\
     forall (base64Data : jsstring) (s' : Page),
       currentImage (reader_onload file base64Data s')
       = Some {| base64 := base64Data; mimeType := type file |} /\
       previewSrc (reader_onload file base64Data s') = base64Data /\
       previewVisible (reader_onload file base64Data s') = true).
Proof.
  split; [reflexivity|]. unfold handleImageFile.
  split; [|split].
  - intros Ht. rewrite Ht. repeat split.
  - intros Ht Hs. apply N.ltb_lt in Hs. rewrite Ht, Hs. repeat split.
  - intros Ht Hs. apply N.ltb_ge in Hs. rewrite Ht, Hs. repeat split.
Qed.

Lemma handleImageFile_validation_witness :
  startsWith (lit "image/") (type pngFile) = true /\
  (size pngFile <= maxSize)%N /\
  handleImageFile pngFile initialPage = (initialPage, Some pngFile) /\
  startsWith (lit "image/") (type textFile) = false /\
  messagesArea (fst (handleImageFile textFile initialPage))
  = [Welcome true; ErrorBubble (lit "Please select a valid image file.")] /\
  startsWith (lit "image/") (type hugeFile) = true /\
  (maxSize < size hugeFile)%N /\
  messagesArea (fst (handleImageFile hugeFile initialPage))
  = [Welcome true; ErrorBubble (lit "Image size must be less than 10MB.")].
Proof.
  destruct (handleImageFile_validation pngFile initialPage) as (_ & _ & _ & A).
  destruct (handleImageFile_validation textFile initialPage) as (_ & B & _).
  destruct (handleImageFile_validation hugeFile initialPage) as (_ & _ & C & _).
  assert (Hs : (size pngFile <= maxSize)%N) by (vm_compute; discriminate).
  assert (Hh : (maxSize < size hugeFile)%N) by reflexivity.
  split; [reflexivity|]. split; [exact Hs|].
  split; [exact (proj1 (A eq_refl Hs))|].
  split; [reflexivity|].
  split; [exact (proj1 (proj2 (B eq_refl)))|].
  split; [reflexivity|]. split; [exact Hh|].
  exact (proj1 (proj2 (C eq_refl Hh))).
Defined.

(** C10. When the read of an accepted file fails, the handler only reports
    the failure: whatever image was attached when the error arrives stays
    attached, with its preview, and the acceptance itself had not touched
    it either. *)
Theorem reader_onerror_keeps_image (file : File) (s s' : Page) :
  startsWith (lit "image/") (type file) = true ->
  (size file <= maxSize)%N ->
  handleImageFile file s = (s, Some file) /\
  currentImage (reader_onerror s') = currentImage s' /\
  previewSrc (reader_onerror s') = previewSrc s' /\
  previewVisible (reader_onerror s') = previewVisible s' /\
  messageHistory (reader_onerror s') = messageHistory s' /\
  messagesArea (reader_onerror s')
  = messagesArea s' ++ [ErrorBubble (lit "Failed to read image file.")].
Proof.
  intros Ht Hs. split; [|repeat split].
  unfold handleImageFile. rewrite Ht. apply N.ltb_ge in Hs. now rewrite Hs.
Qed.

Lemma reader_onerror_keeps_image_witness :
  startsWith (lit "image/") (type pngFile) = true /\
  (size pngFile <= maxSize)%N /\
  currentImage (reader_onerror (page attached)) = currentImage (page attached) /\
  currentImage (page attached)
  = Some {| base64 := lit "data:image/png;base64,AAAA"; mimeType := lit "image/png" |}.
Proof.
  assert (Hs : (size pngFile <= maxSize)%N) by (vm_compute; discriminate).
  split; [reflexivity|]. split; [exact Hs|]. split; [|reflexivity].
  exact (proj1 (proj2
    (@reader_onerror_keeps_image pngFile (page attached) (page attached)
       eq_refl Hs))).
Defined.

(** ** Drag and drop *)

(** C9. A dropped file whose type does not start with [image/] is ignored
    without a word: no reader is started, no bubble is rendered, and the
    state variables and every other part of the page stay as they were; all
    the handler does is hide the drop overlay, as on every drop. The same
    file chosen through the file picker gets the invalid-type bubble. *)
Theorem handleDrop_non_image_ignored (file : File) (rest : list File) (s : Page) :
  startsWith (lit "image/") (type file) = false ->
  handleDrop (file :: rest) s = (hideDropZone s, None) /\
  messagesArea (fst (handleDrop (file :: rest) s)) = messagesArea s /\
  currentImage (fst (handleDrop (file :: rest) s)) = currentImage s /\
  isLoading (fst (handleDrop (file :: rest) s)) = isLoading s /\
  messageHistory (fst (handleDrop (file :: rest) s)) = messageHistory s /\
  (dropZoneVisible s = false -> fst (handleDrop (file :: rest) s) = s) /\
  messagesArea (fst (handleImageFile file s))
  = messagesArea s ++ [ErrorBubble (lit "Please select a valid image file.")].
Proof.
  intros Ht.
  assert (E : handleDrop (file :: rest) s = (hideDropZone s, None)).
  { unfold handleDrop. now rewrite Ht. }
  rewrite E. repeat split.
  - intros V. destruct s. simpl in *. now subst.
  - unfold handleImageFile. now rewrite Ht.
Qed.

Lemma handleDrop_non_image_ignored_witness :
  startsWith (lit "image/") (type textFile) = false /\
  handleDrop [textFile] initialPage = (initialPage, None) /\
  messagesArea (fst (handleImageFile textFile initialPage))
  = [Welcome true; ErrorBubble (lit "Please select a valid image file.")].
Proof.
  destruct (@handleDrop_non_image_ignored textFile [] initialPage eq_refl)
    as (A & _ & _ & _ & _ & _ & B).
  split; [reflexivity|]. split; [exact A|exact B].
Defined.

(** ** Clearing the chat *)

(** C7. Whatever the page was, clearing the chat leaves an empty history, no
    attached image (and no preview of one), an empty input, and a messages
    area that holds the welcome placeholder and nothing else. The click is
    handled unconditionally: there is no state in which it is refused. *)
Theorem clearChat_resets (h : Host) (y : Sys) :
  messageHistory (clearChat (page y)) = [] /\
  currentImage (clearChat (page y)) = None /\
  previewSrc (clearChat (page y)) = [] /\
  previewVisible (clearChat (page y)) = false /\
  messageInput (clearChat (page y)) = [] /\
  messagesArea (clearChat (page y)) = [Welcome false] /\
  step h ClearChatClick y = Some (setPage (clearChat (page y)) y).
Proof. repeat split. Qed.

(** ** The message formatter *)

Lemma serializeText_noAngle (s : jsstring) :
  forallb noAngle (serializeText s) = true.
Proof.
  induction s as [|c s IH]; [reflexivity|].
  simpl. rewrite forallb_app, IH, andb_true_r.
  unfold serializeChar.
  destruct (N.eqb c 38); [reflexivity|].
  destruct (N.eqb c 160); [reflexivity|].
  destruct (N.eqb c 60) eqn:E1; [reflexivity|].
  destruct (N.eqb c 62) eqn:E2; [reflexivity|].
  simpl. unfold noAngle. now rewrite E1, E2.
Qed.

Lemma startsWith_stars (s : jsstring) :
  startsWith (lit "**") s = true -> exists r, s = 42%N :: 42%N :: r.
Proof.
  change (lit "**") with [42%N; 42%N].
  destruct s as [|a [|b r]]; cbn [startsWith]; try discriminate.
  - now rewrite andb_false_r.
  - intros H. apply andb_prop in H as [Ha H].
    apply andb_prop in H as [Hb _].
    apply N.eqb_eq in Ha, Hb. subst. now exists r.
Qed.

(** A match of the lazy group splits the subject at the first pair of stars
    and spans no line terminator. *)
Lemma lazyGroup_sound (s : jsstring) :
  forall g rest : jsstring,
    lazyGroup s = Some (g, rest) ->
    s = g ++ 42%N :: 42%N :: rest /\
    forallb (fun c => negb (isLineTerminator c)) g = true.
Proof.
  induction s as [|c s IH]; intros g rest; [discriminate|].
  cbn [lazyGroup].
  destruct (startsWith (lit "**") (c :: s)) eqn:E.
  - destruct (startsWith_stars _ E) as [r Er]. rewrite Er.
    intros H. injection H as <- <-. now split.
  - destruct (isLineTerminator c) eqn:El; [discriminate|].
    destruct (lazyGroup s) as [[g' rest']|]; [|discriminate].
    intros H. injection H as <- <-.
    destruct (IH g' rest' eq_refl) as [-> Hg].
    split; [reflexivity|]. cbn [forallb]. now rewrite El, Hg.
Qed.

Lemma matchBold_sound (s g rest : jsstring) :
  matchBold s = Some (g, rest) ->
  s = 42%N :: 42%N :: g ++ 42%N :: 42%N :: rest.
Proof.
  unfold matchBold. destruct (startsWith (lit "**") s) eqn:E; [|discriminate].
  destruct (startsWith_stars _ E) as [r ->]. cbn [skipn].
  intros H. now destruct (lazyGroup_sound _ _ _ H) as [-> _].
Qed.

Lemma matchBold_shorter (s g rest : jsstring) :
  matchBold s = Some (g, rest) -> List.length rest < List.length s.
Proof.
  intros H. apply matchBold_sound in H. subst s.
  simpl. rewrite length_app. simpl. lia.
Qed.

(** The fuel never runs out: any amount from the length of the subject on
    gives the same result. *)
Lemma replaceBoldFrom_fuel (n m : nat) :
  forall s : jsstring,
    List.length s <= n -> List.length s <= m ->
    replaceBoldFrom n s = replaceBoldFrom m s.
Proof.
  revert m. induction n as [|n IH]; intros m s Hn Hm.
  - destruct s; [|simpl in Hn; lia]. now destruct m.
  - destruct m as [|m].
    + destruct s; [reflexivity|simpl in Hm; lia].
    + destruct s as [|c s']; [reflexivity|].
      cbn [replaceBoldFrom].
      destruct (matchBold (c :: s')) as [[g rest]|] eqn:E.
      * apply matchBold_shorter in E. simpl in *.
        rewrite (IH m rest); [reflexivity|lia|lia].
      * simpl in *. rewrite (IH m s'); [reflexivity|lia|lia].
Qed.

(** The scan, freed of its fuel. *)
Lemma replaceBold_step (c : N) (s : jsstring) :
  replaceBold (c :: s)
  = match matchBold (c :: s) with
    | Some (g, rest) => lit "<strong>" ++ g ++ lit "</strong>" ++ replaceBold rest
    | None => c :: replaceBold s
    end.
Proof.
  unfold replaceBold. cbn [List.length replaceBoldFrom].
  destruct (matchBold (c :: s)) as [[g rest]|] eqn:E.
  - apply matchBold_shorter in E. simpl in E.
    rewrite (@replaceBoldFrom_fuel (List.length s) (List.length rest) rest);
      [reflexivity|lia|lia].
  - reflexivity.
Qed.

Lemma Inert_of_noAngle (s : jsstring) : forallb noAngle s = true -> Inert s.
Proof.
  induction s as [|c s IH]; simpl; intros H; [constructor|].
  apply andb_prop in H as [Hc Hs]. constructor; auto.
Qed.

Lemma Inert_app (a b : jsstring) : Inert a -> Inert b -> Inert (a ++ b).
Proof.
  intros Ha Hb. induction Ha as [|c s Hc Hs IH|t s Ht Hs IH]; simpl.
  - assumption.
  - now constructor.
  - rewrite <- app_assoc. now constructor.
Qed.

Lemma replaceBold_Inert (s : jsstring) :
  forallb noAngle s = true -> Inert (replaceBold s).
Proof.
  remember (List.length s) as n eqn:Hn. revert s Hn.
  induction n as [n IH] using lt_wf_ind. intros s Hn Hs.
  destruct s as [|c s']; [constructor|].
  rewrite replaceBold_step.
  destruct (matchBold (c :: s')) as [[g rest]|] eqn:E.
  - pose proof (matchBold_shorter _ _ _ E) as Hl.
    apply matchBold_sound in E. rewrite E in Hs.
    change (forallb noAngle ([42%N; 42%N] ++ g ++ [42%N; 42%N] ++ rest) = true) in Hs.
    rewrite !forallb_app in Hs.
    apply andb_prop in Hs as [_ Hs]. apply andb_prop in Hs as [Hg Hs].
    apply andb_prop in Hs as [_ Hr].
    apply Inert_tag; [simpl; auto|].
    apply Inert_app; [now apply Inert_of_noAngle|].
    apply Inert_tag; [simpl; auto|].
    apply (IH (List.length rest)); [subst n; exact Hl|reflexivity|exact Hr].
  - simpl in Hs. apply andb_prop in Hs as [Hc Hs'].
    constructor; [exact Hc|].
    apply (IH (List.length s')); [subst n; simpl; lia|reflexivity|exact Hs'].
Qed.

Lemma replaceNewlines_Inert (s : jsstring) :
  Inert s -> Inert (replaceNewlines s).
Proof.
  intros H. induction H as [|c s Hc Hs IH|t s Ht Hs IH].
  - constructor.
  - unfold replaceNewlines. cbn [flat_map]. fold (replaceNewlines s).
    destruct (N.eqb c 10).
    + apply Inert_tag; [simpl; auto|assumption].
    + simpl. now constructor.
  - unfold replaceNewlines. rewrite flat_map_app. fold (replaceNewlines s).
    assert (E : flat_map (fun c => if N.eqb c 10 then lit "<br>" else [c]) t = t).
    { simpl in Ht. destruct Ht as [<-|[<-|[<-|[]]]]; reflexivity. }
    rewrite E. now constructor.
Qed.

(** ** The send cycle and the history *)

Lemma nth_error_replaceAt {A : Type} (l : list A) (i : nat) (x k : A) :
  nth_error l i = Some x -> nth_error (replaceAt i k l) i = Some k.
Proof.
  revert i. induction l as [|a l IH]; intros [|i]; simpl; try discriminate; auto.
Qed.

Lemma truthy_nonempty (t : jsstring) : t <> [] -> truthy (JStr t) = true.
Proof. destruct t; [congruence|reflexivity]. Qed.

Lemma assistantContentOf_nonnull (data : json) :
  data <> JNull ->
  exists c, assistantContentOf data = Ok c /\ truthy c = true.
Proof.
  intros Hd. unfold assistantContentOf.
  assert (E : exists choices, getField data (lit "choices") = Ok choices).
  { destruct data; simpl; eauto. congruence. }
  destruct E as [choices ->]. cbn [bind].
  destruct (optField _ _) as [v|]; [destruct (truthy v) eqn:T|]; eauto.
Qed.

Lemma sendMessage_body_appends (h : Host) (data c : json) (s : Page) :
  assistantContentOf data = Ok c ->
  messageHistory (sendMessage_body h (Ok data) s)
  = messageHistory s ++ [{| role := assistant; content := [TextPart c] |}].
Proof.
  intros E. unfold sendMessage_body. cbn [bind]. rewrite E.
  destruct (createMessageElement assistant c None); reflexivity.
Qed.

Lemma sendMessage_body_rejects (h : Host) (body : result json) (s : Page) :
  (forall data, body = Ok data -> data = JNull) ->
  messageHistory (sendMessage_body h body s) = messageHistory s.
Proof.
  intros H. unfold sendMessage_body.
  destruct body as [data|e]; [rewrite (H data eq_refl)|]; reflexivity.
Qed.

Lemma sendMessage_body_renders (h : Host) (data c : json) (html : jsstring)
    (s : Page) :
  assistantContentOf data = Ok c ->
  truthy c = true ->
  formatMessageText c = Ok html ->
  messagesArea (sendMessage_body h (Ok data) s)
  = messagesArea s ++ [Message assistant None (Some html)].
Proof.
  intros E T F. unfold sendMessage_body. cbn [bind]. rewrite E.
  unfold createMessageElement. rewrite T, F. reflexivity.
Qed.

(** C1, as the script has it. A submission that passes the guards appends
    exactly one user entry before the request is issued: the posted body is
    the history with that entry as its last element. Of the later steps of
    the cycle only one touches the history: when the body of a 2xx response
    settles as a parsed JSON value other than [null], exactly one assistant
    entry is appended. A rejected fetch, a non-2xx response, and a 2xx
    response whose body does not parse or is [null] append nothing. *)
Theorem sendMessage_history (h : Host) (ev : Event) (y y' : Sys) :
  step h ev y = Some y' ->
  (ev = Submit ->
   isLoading (page y) = false ->
   trim (messageInput (page y)) <> [] \/ currentImage (page y) <> None ->
     messageHistory (page y')
     = messageHistory (page y)
       ++ [{| role := user;
              content := userContent (trim (messageInput (page y)))
                           (currentImage (page y)) |}] /\
     posted y' = posted y ++ [messageHistory (page y')] /\
     sends y' = sends y ++ [AwaitFetch]) /\
  (forall i message, ev = FetchRejected i message ->
     messageHistory (page y') = messageHistory (page y)) /\
  (forall i status, ev = FetchResolved i status ->
     messageHistory (page y') = messageHistory (page y) /\
     nth_error (sends y') i
     = Some (if responseOk status then AwaitBody else AwaitErrorBody status)) /\
  (forall i body, ev = BodySettled i body ->
     (forall data,
        nth_error (sends y) i = Some AwaitBody -> body = Ok data ->
        data <> JNull ->
        exists c,
          assistantContentOf data = Ok c /\
          messageHistory (page y')
          = messageHistory (page y)
            ++ [{| role := assistant; content := [TextPart c] |}]) /\
     (nth_error (sends y) i <> Some AwaitBody \/
      (forall data, body = Ok data -> data = JNull) ->
        messageHistory (page y') = messageHistory (page y))).
Proof.
  intros S. split; [|split; [|split]].
  - intros -> L G. cbn [step] in S. injection S as <-.
    assert (E : handleSubmit (page y)
                = sendMessage (trim (messageInput (page y)))
                    (currentImage (page y)) (page y)).
    { unfold handleSubmit.
      destruct (trim (messageInput (page y))) as [|c t] eqn:Et;
        destruct (currentImage (page y)) eqn:Ei; try reflexivity.
      destruct G; congruence. }
    destruct (sendMessage_idle (trim (messageInput (page y)))
                (currentImage (page y)) (page y) L) as (s' & E' & _ & H & _).
    rewrite E, E'. cbn [snd fst]. simpl. rewrite H. auto.
  - intros i m ->. cbn [step] in S.
    destruct (nth_error (sends y) i) as [[| |]|]; try discriminate.
    injection S as <-. reflexivity.
  - intros i status ->. cbn [step] in S.
    destruct (nth_error (sends y) i) as [[| |]|] eqn:E; try discriminate.
    injection S as <-. split; [reflexivity|].
    cbn [sends setSends sendMessage_fetchResolved snd].
    rewrite (nth_error_replaceAt _ _ _ _ E).
    now destruct (responseOk status).
  - intros i body ->. cbn [step] in S. split.
    + intros data E -> Hd. rewrite E in S. injection S as <-.
      destruct (assistantContentOf_nonnull _ Hd) as (c & Ec & _).
      exists c. split; [exact Ec|]. now apply sendMessage_body_appends.
    + intros G.
      destruct (nth_error (sends y) i) as [[| |]|]; try discriminate;
        injection S as <-.
      * apply sendMessage_errorBody_obs.
      * destruct G as [G|G]; [congruence|].
        now apply sendMessage_body_rejects.
Qed.

Lemma sendMessage_history_witness :
  step v8 Submit (after v8 [Input (lit "button is broken")])
  = Some (after v8 [Input (lit "button is broken"); Submit]) /\
  posted (after v8 [Input (lit "button is broken"); Submit])
  = [[{| role := user;
         content := [TextPart (JStr (lit "button is broken"))] |}]] /\
  step v8 (BodySettled 0 (Ok completionBody)) (after v8 reportSent)
  = Some (after v8 (reportSent ++ [BodySettled 0 (Ok completionBody)])) /\
  exists c,
    assistantContentOf completionBody = Ok c /\
    messageHistory (page (after v8 (reportSent ++ [BodySettled 0 (Ok completionBody)])))
    = messageHistory (page (after v8 reportSent))
      ++ [{| role := assistant; content := [TextPart c] |}].
Proof.
  assert (S1 : step v8 Submit (after v8 [Input (lit "button is broken")])
               = Some (after v8 [Input (lit "button is broken"); Submit]))
    by reflexivity.
  assert (S2 : step v8 (BodySettled 0 (Ok completionBody)) (after v8 reportSent)
               = Some (after v8 (reportSent ++ [BodySettled 0 (Ok completionBody)])))
    by reflexivity.
  destruct (sendMessage_history v8 _ _ _ S1) as (A & _).
  destruct (sendMessage_history v8 _ _ _ S2) as (_ & _ & _ & B).
  split; [exact S1|]. split.
  - destruct (A eq_refl eq_refl) as (_ & P & _).
    + left. vm_compute. discriminate.
    + exact P.
  - split; [exact S2|].
    destruct (B 0 (Ok completionBody) eq_refl) as [B1 _].
    apply (B1 completionBody); [reflexivity|reflexivity|discriminate].
Defined.

(** C1 as written fails: a 200 response whose body is not JSON completes the
    cycle with the user entry alone in the history. *)
Lemma assistant_entry_not_for_every_2xx :
  responseOk 200 = true /\
  option_map (fun y => (roles (messageHistory (page y)), sends y))
    (run v8
       [Input (lit "hi"); Submit; FetchResolved 0 200;
        BodySettled 0
          (Raise (ErrorObj (lit "Unexpected token < in JSON at position 0")))]
       initial)
  = Some ([user], []).
Proof. split; reflexivity. Qed.

(** ** The response of the proxy *)

(** C8, as the script has it. When the body of a 2xx response settles as a
    parsed JSON value other than [null], the content of the first choice's
    message is taken, or the literal [No response received.] when that
    content is missing or falsy (missing choices, an empty list of choices,
    an empty string); exactly one assistant entry carrying it is appended,
    the flag is reset, and when the content is a string it is rendered as
    one assistant bubble. *)
Theorem sendMessage_body_parsed (h : Host) (y : Sys) (i : nat) (data : json) :
  nth_error (sends y) i = Some AwaitBody ->
  data <> JNull ->
  (forall (y0 : Sys) (status : nat),
      responseOk status = true ->
      nth_error (sends y0) i = Some AwaitFetch ->
      exists y1, step h (FetchResolved i status) y0 = Some y1 /\
                 nth_error (sends y1) i = Some AwaitBody) /\
  exists c y',
    step h (BodySettled i (Ok data)) y = Some y' /\
    assistantContentOf data = Ok c /\
    truthy c = true /\
    messageHistory (page y')
    = messageHistory (page y)
      ++ [{| role := assistant; content := [TextPart c] |}] /\
    isLoading (page y') = false /\
    (forall fields items cf mf,
        data = JObj fields ->
        lookup (lit "choices") fields = Some (JArr (JObj cf :: items)) ->
        lookup (lit "message") cf = Some (JObj mf) ->
        c = match lookup (lit "content") mf with
            | Some v => if truthy v then v else JStr (lit "No response received.")
            | None => JStr (lit "No response received.")
            end) /\
    (forall fields,
        data = JObj fields ->
        lookup (lit "choices") fields = None \/
        lookup (lit "choices") fields = Some (JArr []) ->
        c = JStr (lit "No response received.")) /\
    (forall html,
        formatMessageText c = Ok html ->
        messagesArea (page y')
        = messagesArea (page y) ++ [Message assistant None (Some html)]) /\
    (forall t,
        c = JStr t ->
        formatMessageText c
        = Ok (replaceNewlines (replaceBold (serializeText t)))).
Proof.
  intros E Hd. split.
  - intros y0 status Hs E0. cbn [step]. rewrite E0. eexists. split; [reflexivity|].
    cbn [sends setSends sendMessage_fetchResolved snd].
    rewrite (nth_error_replaceAt _ _ _ _ E0). now rewrite Hs.
  - destruct (assistantContentOf_nonnull _ Hd) as (c & Ec & Tc).
    exists c. eexists. cbn [step]. rewrite E.
    split; [reflexivity|]. split; [exact Ec|]. split; [exact Tc|].
    cbn [page setSends setPage].
    split; [now apply sendMessage_body_appends|].
    split; [apply sendMessage_body_obs|].
    split; [|split; [|split]].
    + intros fields items cf mf -> Hc Hm.
      unfold assistantContentOf in Ec. cbn [getField bind] in Ec.
      rewrite Hc in Ec. cbn [optFirst optField] in Ec. rewrite Hm in Ec.
      cbn [optField] in Ec. now injection Ec as <-.
    + intros fields -> [Hc|Hc];
        unfold assistantContentOf in Ec; cbn [getField bind] in Ec;
        rewrite Hc in Ec; cbn [optFirst optField] in Ec;
        now injection Ec as <-.
    + intros html Hf. now apply (sendMessage_body_renders h data c html).
    + intros t ->. reflexivity.
Qed.

Lemma sendMessage_body_parsed_witness :
  nth_error (sends (after v8 reportSent)) 0 = Some AwaitBody /\
  completionBody <> JNull /\
  exists c y',
    step v8 (BodySettled 0 (Ok completionBody)) (after v8 reportSent) = Some y' /\
    assistantContentOf completionBody = Ok c /\
    messageHistory (page y')
    = messageHistory (page (after v8 reportSent))
      ++ [{| role := assistant; content := [TextPart c] |}].
Proof.
  assert (Hd : completionBody <> JNull) by discriminate.
  split; [reflexivity|]. split; [exact Hd|].
  destruct (@sendMessage_body_parsed v8 (after v8 reportSent) 0 completionBody
              eq_refl Hd) as (_ & c & y' & S & Ec & _ & Hh & _).
  exists c, y'. auto.
Defined.

(** Content that cannot be converted to text is recorded but not rendered:
    the conversion throws after the entry was pushed. *)
Example unprintable_content_recorded_not_rendered :
  option_map
    (fun y => (roles (messageHistory (page y)), messagesArea (page y)))
    (run v8
       [Input (lit "hi"); Submit; FetchResolved 0 200;
        BodySettled 0
          (Ok (JObj [(lit "choices",
                      JArr [JObj [(lit "message",
                                   JObj [(lit "content",
                                          JObj [(lit "toString", JBool true)])])]])]))]
       initial)
  = Some ([user; assistant],
          [Message user None (Some (lit "hi"));
           ErrorBubble
             (lit "Failed to send message: Cannot convert object to primitive value")]).
Proof. reflexivity. Qed.

(** C8 as written fails: a 204 response has no body to parse, and the cycle
    ends with an error bubble and no assistant entry. *)
Lemma no_assistant_entry_for_204 :
  responseOk 204 = true /\
  option_map
    (fun y => (roles (messageHistory (page y)), messagesArea (page y)))
    (run v8
       [Input (lit "hi"); Submit; FetchResolved 0 204;
        BodySettled 0 (Raise (ErrorObj (lit "Unexpected end of JSON input")))]
       initial)
  = Some ([user],
          [Message user None (Some (lit "hi"));
           ErrorBubble
             (lit "Failed to send message: Unexpected end of JSON input")]).
Proof. split; reflexivity. Qed.

(** ** Failure and cleanup *)

Lemma errorResponseThrown_error_string (status : nat)
    (fields : list (jsstring * json)) (e : jsstring) :
  lookup (lit "error") fields = Some (JStr e) ->
  e <> [] ->
  errorResponseThrown status (Ok (JObj fields)) = ErrorObj e.
Proof.
  intros H He. unfold errorResponseThrown. cbn [getField bind].
  rewrite H, (truthy_nonempty e He). reflexivity.
Qed.

Lemma errorResponseThrown_error_value (status : nat)
    (fields : list (jsstring * json)) (v : json) (r : jsstring) :
  lookup (lit "error") fields = Some v ->
  truthy v = true ->
  toString v = Ok r ->
  errorResponseThrown status (Ok (JObj fields)) = ErrorObj r.
Proof.
  intros H T R. unfold errorResponseThrown. cbn [getField bind].
  now rewrite H, T, R.
Qed.

Lemma errorResponseThrown_fallback (status : nat) (body : result json) :
  (forall data, body = Ok data ->
     exists fields, data = JObj fields /\ lookup (lit "error") fields = None) ->
  errorResponseThrown status body
  = ErrorObj (lit "Request failed with status " ++ decimal status).
Proof.
  intros H. unfold errorResponseThrown. destruct body as [data|e].
  - destruct (H data eq_refl) as (fields & -> & E).
    cbn [getField bind]. now rewrite E.
  - reflexivity.
Qed.

Lemma errorResponseThrown_null (status : nat) :
  errorResponseThrown status (Ok JNull) = NullProperty (lit "error").
Proof. reflexivity. Qed.

Lemma errorResponseThrown_no_reason (status : nat) (body : result json) :
  (forall data, body = Ok data ->
     data <> JNull /\
     forall fields, data = JObj fields ->
       truthy_opt (lookup (lit "error") fields) = false) ->
  errorResponseThrown status body
  = ErrorObj (lit "Request failed with status " ++ decimal status).
Proof.
  intros H. unfold errorResponseThrown. destruct body as [data|e]; [|reflexivity].
  destruct (H data eq_refl) as [Hn Hf].
  destruct data as [| | | | |fields]; try reflexivity; [congruence|].
  cbn [getField bind]. specialize (Hf fields eq_refl).
  destruct (lookup (lit "error") fields) as [v|]; [|reflexivity].
  cbn [truthy_opt] in Hf. now rewrite Hf.
Qed.

Lemma errorResponseThrown_unconvertible (status : nat)
    (fields : list (jsstring * json)) (v : json) (e : Exn) :
  lookup (lit "error") fields = Some v ->
  truthy v = true ->
  toString v = Raise e ->
  errorResponseThrown status (Ok (JObj fields)) = e.
Proof.
  intros H T R. unfold errorResponseThrown. cbn [getField bind].
  now rewrite H, T, R.
Qed.

Lemma toString_shadowed (fields : list (jsstring * json)) :
  lookup (lit "toString") fields <> None ->
  toString (JObj fields) = Raise NotPrimitive.
Proof.
  intros H. cbn [toString].
  destruct (lookup (lit "toString") fields); [reflexivity|congruence].
Qed.

(** C6, as the script has it. In every run of the page: a rejected fetch and
    a non-2xx response each end the cycle with an error bubble appended to the
    messages area, and neither adds anything to the history. The text of the
    bubble is [Failed to send message: ] followed by the message of the error
    that reached the catch block, which is, case by case: the message of the
    transport error; for a non-2xx response, the string form of the [error]
    field of the body when the field is there, truthy, and convertible to a
    string; the status line [Request failed with status N] when the body does
    not parse, is not an object, or has no truthy [error] field; and the
    engine's own message when reading the field or converting it throws, that
    is, when the body is [null] or the [error] value is an object that cannot
    be converted. Whatever way a cycle ends, success included, afterwards
    [isLoading] is false, the send button is enabled, no typing indicator is
    left and no call is suspended. *)
Theorem sendMessage_failure_cleanup (h : Host) (evs : list Event)
    (ev : Event) (y y' : Sys) :
  run h evs initial = Some y ->
  step h ev y = Some y' ->
  (forall i message, ev = FetchRejected i message ->
     messageHistory (page y') = messageHistory (page y) /\
     messagesArea (page y')
     = removeFirstIndicator (messagesArea (page y))
       ++ [ErrorBubble (serializeText (lit "Failed to send message: " ++ message))]) /\
  (forall i status, ev = FetchResolved i status ->
     responseOk status = false ->
     messageHistory (page y') = messageHistory (page y) /\
     sends y' = [AwaitErrorBody status]) /\
  (forall i body status, ev = BodySettled i body ->
     nth_error (sends y) i = Some (AwaitErrorBody status) ->
     messageHistory (page y') = messageHistory (page y) /\
     exists reason,
       messagesArea (page y')
       = messagesArea (page y)
         ++ [ErrorBubble (serializeText (lit "Failed to send message: " ++ reason))] /\
       (forall fields e,
           body = Ok (JObj fields) ->
           lookup (lit "error") fields = Some (JStr e) -> e <> [] ->
           reason = e) /\
       (forall fields v r,
           body = Ok (JObj fields) ->
           lookup (lit "error") fields = Some v -> truthy v = true ->
           toString v = Ok r ->
           reason = r) /\
       ((forall data, body = Ok data ->
           exists fields, data = JObj fields /\ lookup (lit "error") fields = None) ->
         reason = lit "Request failed with status " ++ decimal status) /\
       ((forall data, body = Ok data ->
           data <> JNull /\
           forall fields, data = JObj fields ->
             truthy_opt (lookup (lit "error") fields) = false) ->
         reason = lit "Request failed with status " ++ decimal status) /\
       (body = Ok JNull -> reason = nullPropertyMessage h (lit "error")) /\
       (forall fields v e,
           body = Ok (JObj fields) ->
           lookup (lit "error") fields = Some v -> truthy v = true ->
           toString v = Raise e ->
           reason = errorMessage h e) /\
       (forall fields shadowing,
           body = Ok (JObj fields) ->
           lookup (lit "error") fields = Some (JObj shadowing) ->
           lookup (lit "toString") shadowing <> None ->
           reason = notPrimitiveMessage h)) /\
  ((exists i message, ev = FetchRejected i message) \/
   (exists i body, ev = BodySettled i body) ->
     isLoading (page y') = false /\
     sendBtnDisabled (page y') = false /\
     typingCount (messagesArea (page y')) = 0 /\
     sends y' = []).
Proof.
  intros R S. pose proof (reachable_Inv h evs y R) as I.
  pose proof (step_Inv h ev y y' I S) as I'.
  split; [|split; [|split]].
  - intros i m ->. cbn [step] in S.
    destruct (nth_error (sends y) i) as [[| |]|]; try discriminate.
    injection S as <-. split; reflexivity.
  - intros i status -> Hs. cbn [step] in S.
    destruct (nth_error (sends y) i) as [[| |]|] eqn:E; try discriminate.
    injection S as <-. destruct (Inv_sends y i _ I E) as [-> Es].
    split; [reflexivity|].
    cbn [sends setSends sendMessage_fetchResolved snd]. rewrite Es, Hs.
    reflexivity.
  - intros i body status -> E. cbn [step] in S. rewrite E in S.
    injection S as <-. destruct (Inv_sends y i _ I E) as [-> Es].
    split; [reflexivity|].
    exists (errorMessage h (errorResponseThrown status body)).
    assert (T : typingCount (messagesArea (page y)) = 0).
    { unfold Inv in I. rewrite Es in I. tauto. }
    split; [|split; [|split; [|split; [|split; [|split; [|split]]]]]].
    + cbn [page setSends setPage]. unfold sendMessage_errorBody.
      change (messagesArea (sendMessage_finally ?s)) with (messagesArea s).
      unfold sendMessage_catch. rewrite messagesArea_showErrorMessage.
      cbn [messagesArea removeTypingIndicator setMessagesArea].
      now rewrite (removeFirstIndicator_absent _ T).
    + intros fields e -> He Hn.
      now rewrite (errorResponseThrown_error_string status fields e He Hn).
    + intros fields v r -> Hv Tv Hr.
      now rewrite (errorResponseThrown_error_value status fields v r Hv Tv Hr).
    + intros Hb. now rewrite (errorResponseThrown_fallback status body Hb).
    + intros Hb. now rewrite (errorResponseThrown_no_reason status body Hb).
    + intros ->. now rewrite errorResponseThrown_null.
    + intros fields v e -> Hv Tv Hr.
      now rewrite (errorResponseThrown_unconvertible status fields v e Hv Tv Hr).
    + intros fields shadowing -> Hv Hs.
      now rewrite (errorResponseThrown_unconvertible status fields
                     (JObj shadowing) NotPrimitive Hv eq_refl
                     (toString_shadowed shadowing Hs)).
  - intros Hev.
    assert (Es : sends y' = []).
    { destruct Hev as [(i & m & ->)|(i & body & ->)]; cbn [step] in S;
        destruct (nth_error (sends y) i) as [[| |]|] eqn:E; try discriminate;
        injection S as <-; destruct (Inv_sends y i _ I E) as [-> Es];
        cbn [sends setSends]; rewrite Es; reflexivity. }
    assert (Hb : sendBtnDisabled (page y') = false).
    { destruct Hev as [(i & m & ->)|(i & body & ->)]; cbn [step] in S;
        destruct (nth_error (sends y) i) as [[| |]|]; try discriminate;
        injection S as <-; reflexivity. }
    unfold Inv in I'. rewrite Es in I'. tauto.
Qed.

Lemma sendMessage_failure_cleanup_witness :
  run v8 reportRefused initial = Some (after v8 reportRefused) /\
  step v8 (BodySettled 0 (Ok rateLimited)) (after v8 reportRefused)
  = Some (after v8 (reportRefused ++ [BodySettled 0 (Ok rateLimited)])) /\
  messageHistory (page (after v8 (reportRefused ++ [BodySettled 0 (Ok rateLimited)])))
  = messageHistory (page (after v8 reportRefused)) /\
  messagesArea (page (after v8 (reportRefused ++ [BodySettled 0 (Ok rateLimited)])))
  = [Message user None (Some (lit "button is broken"));
     ErrorBubble (lit "Failed to send message: rate limited")] /\
  isLoading (page (after v8 (reportRefused ++ [BodySettled 0 (Ok rateLimited)])))
  = false /\
  typingCount
    (messagesArea (page (after v8 (reportRefused ++ [BodySettled 0 (Ok rateLimited)]))))
  = 0.
Proof.
  assert (R : run v8 reportRefused initial = Some (after v8 reportRefused))
    by reflexivity.
  assert (S : step v8 (BodySettled 0 (Ok rateLimited)) (after v8 reportRefused)
              = Some (after v8 (reportRefused ++ [BodySettled 0 (Ok rateLimited)])))
    by reflexivity.
  destruct (sendMessage_failure_cleanup v8 reportRefused _ _ _ R S)
    as (_ & _ & A & B).
  destruct (A 0 (Ok rateLimited) 500 eq_refl eq_refl) as (Hh & _).
  destruct B as (Hl & _ & Ht & _).
  { right. exists 0, (Ok rateLimited). reflexivity. }
  split; [exact R|]. split; [exact S|]. split; [exact Hh|].
  split; [reflexivity|]. split; [exact Hl|exact Ht].
Defined.

(** C6 as written fails: the body of this 500 response has an [error]
    field, an object that shadows [toString]; converting it throws, and the
    bubble carries the engine's message, nothing of the field. With the body
    [null] the bubble likewise carries the engine's message and not the
    status. *)
Lemma error_field_not_always_shown :
  responseOk 500 = false /\
  lookup (lit "error")
    [(lit "error", JObj [(lit "toString", JBool true); (lit "code", JStr (lit "E42"))])]
  = Some (JObj [(lit "toString", JBool true); (lit "code", JStr (lit "E42"))]) /\
  option_map (fun y => messagesArea (page y))
    (run v8
       (reportRefused
        ++ [BodySettled 0
              (Ok (JObj [(lit "error",
                          JObj [(lit "toString", JBool true);
                                (lit "code", JStr (lit "E42"))])]))])
       initial)
  = Some [Message user None (Some (lit "button is broken"));
          ErrorBubble
            (lit "Failed to send message: Cannot convert object to primitive value")] /\
  option_map (fun y => messagesArea (page y))
    (run v8 (reportRefused ++ [BodySettled 0 (Ok JNull)]) initial)
  = Some [Message user None (Some (lit "button is broken"));
          ErrorBubble
            (lit "Failed to send message: Cannot read properties of null (reading 'error')")].
Proof. repeat split. Qed.

(** * Further properties of the script *)

(** ** Trimming and submission *)

Lemma jseqb_eq (a b : jsstring) : jseqb a b = true <-> a = b.
Proof.
  revert b. induction a as [|x a IH]; intros [|y b]; simpl;
    try (split; [discriminate|discriminate]); [tauto|].
  rewrite andb_true_iff, N.eqb_eq, IH.
  split; [intros [-> ->]; reflexivity|intros E; injection E; auto].
Qed.

Lemma trimStart_blank (s : jsstring) :
  forallb isWhiteSpace s = true -> trimStart s = [].
Proof.
  induction s as [|c s IH]; [reflexivity|]. simpl.
  intros H. apply andb_prop in H as [Hc Hs]. rewrite Hc. auto.
Qed.

Lemma trimStart_head (s : jsstring) (c : N) (r : jsstring) :
  trimStart s = c :: r -> isWhiteSpace c = false.
Proof.
  induction s as [|x s IH]; [discriminate|]. simpl.
  destruct (isWhiteSpace x) eqn:E; [exact IH|].
  intros H. injection H as <- _. exact E.
Qed.

Lemma trimStart_suffix (s : jsstring) : exists p, s = p ++ trimStart s.
Proof.
  induction s as [|x s [p IH]]; [now exists []|]. simpl.
  destruct (isWhiteSpace x).
  - exists (x :: p). simpl. now rewrite <- IH.
  - now exists [].
Qed.

Lemma trimStart_nonblank (s : jsstring) :
  existsb (fun c => negb (isWhiteSpace c)) s = true -> trimStart s <> [].
Proof.
  induction s as [|x s IH]; [discriminate|]. simpl.
  destruct (isWhiteSpace x); simpl; [exact IH|discriminate].
Qed.

Lemma existsb_trimStart (p : N -> bool) (s : jsstring) :
  trimStart s <> [] -> existsb (fun c => negb (isWhiteSpace c)) (trimStart s) = true.
Proof.
  destruct (trimStart s) as [|c r] eqn:E; [congruence|].
  intros _. simpl. now rewrite (trimStart_head s c r E).
Qed.

Lemma existsb_rev (p : N -> bool) (s : jsstring) :
  existsb p (rev s) = existsb p s.
Proof.
  induction s as [|x s IH]; [reflexivity|].
  simpl. rewrite existsb_app, IH. simpl. now rewrite orb_false_r, orb_comm.
Qed.

Lemma trim_blank (s : jsstring) : forallb isWhiteSpace s = true -> trim s = [].
Proof. intros H. unfold trim. now rewrite (trimStart_blank s H). Qed.

Lemma trim_nonblank (s : jsstring) :
  existsb (fun c => negb (isWhiteSpace c)) s = true -> trim s <> [].
Proof.
  intros H. unfold trim.
  pose proof (existsb_trimStart (fun _ => true) s (trimStart_nonblank s H)) as H1.
  rewrite <- existsb_rev in H1.
  pose proof (trimStart_nonblank _ H1) as H2.
  intros E. apply H2. apply (f_equal (@rev N)) in E.
  now rewrite rev_involutive in E.
Qed.

(** The trimmed text is empty or has a character that is not white space at
    each end. *)
Lemma trim_ends (s : jsstring) :
  trim s = [] \/
  (exists c r, trim s = c :: r /\ isWhiteSpace c = false) /\
  (exists r c, trim s = r ++ [c] /\ isWhiteSpace c = false).
Proof.
  unfold trim.
  destruct (trimStart (rev (trimStart s))) as [|c r] eqn:E; [now left|].
  right. pose proof (trimStart_head _ _ _ E) as Hc. split.
  - destruct (trimStart_suffix (rev (trimStart s))) as [p Hp].
    rewrite E in Hp.
    destruct (trimStart s) as [|x t] eqn:Ex.
    + destruct p; discriminate.
    + pose proof (trimStart_head _ _ _ Ex) as Hx.
      apply (f_equal (@rev N)) in Hp. rewrite rev_involutive, rev_app_distr in Hp.
      destruct (rev (c :: r)) as [|x' t'] eqn:Er.
      * apply (f_equal (@List.length N)) in Er. rewrite length_rev in Er.
        discriminate.
      * simpl in Hp. injection Hp as -> _. eauto.
  - exists (rev r), c. split; [reflexivity|exact Hc].
Qed.

Lemma userContent_nonempty (text : jsstring) (image : option Image) :
  text <> [] \/ image <> None -> userContent text image <> [].
Proof.
  unfold userContent. destruct text as [|c t]; destruct image; simpl;
    intros [H|H]; congruence.
Qed.

(** What a call that passes the guard leaves behind, field by field. *)
Lemma sendMessage_effect (text : jsstring) (image : option Image) (s : Page) :
  isLoading s = false ->
  exists im bu,
    sendMessage text image s
    = ({| currentImage := None; isLoading := true;
          messageHistory :=
            messageHistory s
            ++ [{| role := user; content := userContent text image |}];
          dragCounter := dragCounter s;
          messagesArea :=
            (filter (fun n => negb (isOriginalWelcome n)) (messagesArea s)
             ++ [Message user im bu]) ++ [TypingIndicator];
          messageInput := []; sendBtnDisabled := true; previewSrc := [];
          previewVisible := false; fileInputValue := [];
          dropZoneVisible := dropZoneVisible s |},
       Some (messageHistory s
             ++ [{| role := user; content := userContent text image |}])).
Proof.
  intros H. unfold sendMessage. rewrite H.
  destruct (createMessageElement_string user text (option_map base64 image))
    as (im & bu & E).
  rewrite E. exists im, bu. reflexivity.
Qed.

Lemma handleSubmit_sends (s s' : Page) (body : list Entry) :
  handleSubmit s = (s', Some body) ->
  isLoading s = false /\
  (trim (messageInput s) <> [] \/ currentImage s <> None) /\
  sendMessage (trim (messageInput s)) (currentImage s) s = (s', Some body).
Proof.
  intros H.
  destruct (isLoading s) eqn:L.
  { rewrite (handleSubmit_loading s L) in H. discriminate. }
  split; [reflexivity|]. unfold handleSubmit in H.
  destruct (trim (messageInput s)) as [|c t] eqn:Et;
    destruct (currentImage s) eqn:Ei; simpl in H;
    try discriminate; (split; [|exact H]); (left + right); congruence.
Qed.

(** X1. Input that consists of white space only (spaces, tabs, line breaks,
    no-break spaces) is not sent when no image is attached: the page and the
    request log stay as they are. *)
Theorem handleSubmit_blank_ignored (h : Host) (y : Sys) :
  forallb isWhiteSpace (messageInput (page y)) = true ->
  currentImage (page y) = None ->
  handleSubmit (page y) = (page y, None) /\ step h Submit y = Some y.
Proof.
  intros Hb Hi.
  assert (E : handleSubmit (page y) = (page y, None)).
  { unfold handleSubmit. rewrite (trim_blank _ Hb), Hi. reflexivity. }
  split; [exact E|]. cbn [step]. rewrite E. cbn [snd fst].
  now rewrite setPage_page.
Qed.

Lemma handleSubmit_blank_ignored_witness :
  forallb isWhiteSpace (messageInput (page blankLines)) = true /\
  currentImage (page blankLines) = None /\
  step v8 Submit blankLines = Some blankLines.
Proof.
  split; [reflexivity|]. split; [reflexivity|].
  apply (handleSubmit_blank_ignored v8 blankLines); reflexivity.
Defined.



(** ** What every run preserves *)

Lemma sameCore_refl (s : Page) : sameCore s s.
Proof. repeat split. Qed.

Lemma sameCore_trans (a b c : Page) : sameCore a b -> sameCore b c -> sameCore a c.
Proof. unfold sameCore. intuition congruence. Qed.

Lemma handleImageFile_core (file : File) (s : Page) :
  sameCore s (fst (handleImageFile file s)).
Proof.
  unfold handleImageFile.
  destruct (negb _); [|destruct (N.ltb _ _)]; repeat split.
Qed.

Lemma handleDrop_core (files : list File) (s : Page) :
  sameCore s (fst (handleDrop files s)).
Proof.
  unfold handleDrop. destruct files as [|f fs]; [repeat split|].
  destruct (startsWith _ _); [|repeat split].
  apply (sameCore_trans s (hideDropZone s)); [repeat split|].
  apply handleImageFile_core.
Qed.

Lemma withReader_posted (r : Page * option File) (y : Sys) :
  posted (withReader r y) = posted y.
Proof. unfold withReader. now destruct (snd r). Qed.

Lemma dropListener_core (files : list File) (y : Sys) :
  sameCore (page y) (page (dropListener files y)) /\
  posted (dropListener files y) = posted y.
Proof.
  unfold dropListener. rewrite withReader_posted.
  destruct (withReader_frame
    (handleDrop files (setDragCounter 0%Z (page y))) y) as [_ ->].
  split; [|reflexivity].
  apply (sameCore_trans (page y) (setDragCounter 0%Z (page y)));
    [repeat split|apply handleDrop_core].
Qed.

Lemma sendMessage_body_core (h : Host) (body : result json) (s : Page) :
  isLoading (sendMessage_body h body s) = false /\
  sendBtnDisabled (sendMessage_body h body s) = false /\
  currentImage (sendMessage_body h body s) = currentImage s /\
  previewSrc (sendMessage_body h body s) = previewSrc s /\
  previewVisible (sendMessage_body h body s) = previewVisible s /\
  (messageHistory (sendMessage_body h body s) = messageHistory s \/
   exists c,
     messageHistory (sendMessage_body h body s)
     = messageHistory s ++ [{| role := assistant; content := [TextPart c] |}]).
Proof.
  unfold sendMessage_body.
  destruct (data <- body ;; assistantContentOf data) as [c|e].
  - destruct (createMessageElement assistant c None);
      repeat split; right; exists c; reflexivity.
  - repeat split. now left.
Qed.

(** The shapes a step can take, as far as the flags, the attachment, the
    history and the request log go. *)
Lemma step_shape (h : Host) (ev : Event) (y y' : Sys) :
  Inv y -> step h ev y = Some y' ->
  (sameCore (page y) (page y') /\ posted y' = posted y) \/
  (isLoading (page y) = false /\
   exists e,
     role e = user /\
     messageHistory (page y') = messageHistory (page y) ++ [e] /\
     posted y' = posted y ++ [messageHistory (page y')] /\
     isLoading (page y') = true /\ sendBtnDisabled (page y') = true /\
     currentImage (page y') = None /\ previewSrc (page y') = [] /\
     previewVisible (page y') = false) \/
  (isLoading (page y) = true /\ posted y' = posted y /\
   isLoading (page y') = false /\ sendBtnDisabled (page y') = false /\
   currentImage (page y') = currentImage (page y) /\
   previewSrc (page y') = previewSrc (page y) /\
   previewVisible (page y') = previewVisible (page y) /\
   (messageHistory (page y') = messageHistory (page y) \/
    exists e, role e = assistant /\
      messageHistory (page y') = messageHistory (page y) ++ [e])) \/
  (posted y' = posted y /\
   isLoading (page y') = isLoading (page y) /\
   sendBtnDisabled (page y') = sendBtnDisabled (page y) /\
   previewMirrors (page y') /\
   (messageHistory (page y') = messageHistory (page y) \/
    ev = ClearChatClick /\ messageHistory (page y') = [])).
Proof.
  intros I S. destruct ev; cbn [step] in S.
  - (* Input *)
    injection S as <-. left. split; [repeat split|reflexivity].
  - (* Submit *)
    injection S as <-.
    destruct (handleSubmit (page y)) as [s' [body|]] eqn:E; cbn [snd fst].
    + right. left.
      destruct (handleSubmit_sends _ _ _ E) as (L & _ & E').
      destruct (sendMessage_effect (trim (messageInput (page y)))
                  (currentImage (page y)) (page y) L) as (im & bu & E2).
      rewrite E2 in E'. injection E' as <- <-.
      split; [exact L|]. eexists. split; [|repeat split]. reflexivity.
    + left.
      destruct (handleSubmit_cases (page y)) as [E'|(_ & s2 & E' & _)];
        rewrite E' in E; [|discriminate].
      injection E as <-. split; [repeat split|reflexivity].
  - (* FetchRejected *)
    destruct (nth_error (sends y) i) as [[| |]|] eqn:E; try discriminate.
    injection S as <-. destruct (Inv_sends y i _ I E) as [-> Es].
    right. right. left. unfold Inv in I. rewrite Es in I.
    split; [tauto|]. repeat split. now left.
  - (* FetchResolved *)
    destruct (nth_error (sends y) i) as [[| |]|] eqn:E; try discriminate.
    injection S as <-. left. split; [repeat split|reflexivity].
  - (* BodySettled *)
    destruct (nth_error (sends y) i) as [[| |]|] eqn:E; try discriminate;
      injection S as <-; destruct (Inv_sends y i _ I E) as [-> Es];
      right; right; left; unfold Inv in I; rewrite Es in I;
      (split; [tauto|]).
    + repeat split. now left.
    + destruct (sendMessage_body_core h body (page y))
        as (A & B & C & D & F & [G|(c & G)]);
        cbn [page setSends setPage posted];
        repeat split; auto.
      right. eexists. split; [|exact G]. reflexivity.
  - (* FileChange *)
    injection S as <-. left.
    destruct files as [|f fs]; [split; [repeat split|reflexivity]|].
    rewrite withReader_posted.
    destruct (withReader_frame
      (handleImageFile f (setFileInputValue value (page y))) y) as [_ ->].
    split; [|reflexivity].
    apply (sameCore_trans (page y) (setFileInputValue value (page y)));
      [repeat split|apply handleImageFile_core].
  - (* Drop *)
    injection S as <-. left.
    destruct (dropListener_core files y) as [C1 P1].
    destruct onOverlay; [|now split].
    destruct (dropListener_core files (dropListener files y)) as [C2 P2].
    split; [exact (sameCore_trans _ _ _ C1 C2)|congruence].
  - (* ReaderLoad *)
    destruct (nth_error (readers y) i); [|discriminate].
    injection S as <-. right. right. right.
    repeat split. now left.
  - (* ReaderError *)
    destruct (nth_error (readers y) i); [|discriminate].
    injection S as <-. left. split; [repeat split|reflexivity].
  - (* RemoveImageClick *)
    injection S as <-. right. right. right. repeat split. now left.
  - (* ClearChatClick *)
    injection S as <-. right. right. right. repeat split. now right.
  - (* DragEnter *)
    injection S as <-. left. destruct hasFiles; (split; [repeat split|reflexivity]).
  - (* DragLeave *)
    injection S as <-. left.
    destruct (Z.eqb _ _); (split; [repeat split|reflexivity]).
Qed.

Lemma alternating_snoc (l : list Role) (r : Role) :
  alternating (l ++ [r])
  = alternating l
    && negb (match r, last l user with
             | assistant, assistant => true
             | _, _ => false
             end).
Proof.
  induction l as [|a l IH].
  - now destruct r.
  - destruct l as [|b l'].
    + destruct a, r; reflexivity.
    + change ((a :: b :: l') ++ [r]) with (a :: ((b :: l') ++ [r])).
      change (last (a :: b :: l') user) with (last (b :: l') user).
      destruct a, b; simpl in *; try exact IH; reflexivity.
Qed.

Lemma alternating_push (hist : list Entry) (e : Entry) :
  alternating (roles hist) = true ->
  role e = user \/ lastIsAssistant hist = false ->
  alternating (roles (hist ++ [e])) = true.
Proof.
  intros A H. unfold roles in *. rewrite map_app. simpl.
  rewrite alternating_snoc, A. unfold lastIsAssistant, roles in H.
  destruct (role e); [reflexivity|].
  destruct H as [H|H]; [discriminate|].
  now destruct (last (map role hist) user).
Qed.

Lemma lastIsAssistant_push (hist : list Entry) (e : Entry) :
  lastIsAssistant (hist ++ [e])
  = match role e with assistant => true | user => false end.
Proof.
  unfold lastIsAssistant, roles. rewrite map_app. simpl.
  now rewrite last_last.
Qed.

Lemma endsWithUser_push (hist : list Entry) (e : Entry) :
  role e = user -> endsWithUser (hist ++ [e]) = true.
Proof.
  intros H. unfold endsWithUser. rewrite rev_app_distr. simpl. now rewrite H.
Qed.

Lemma Inv2_initial : Inv2 initial.
Proof. repeat split. Qed.

Lemma step_Inv2 (h : Host) (ev : Event) (y y' : Sys) :
  Inv y -> Inv2 y -> step h ev y = Some y' -> Inv2 y'.
Proof.
  intros I (B & P & E1 & E2 & A & L) S.
  destruct (step_shape h ev y y' I S)
    as [((c1 & c2 & c3 & c4 & c5 & c6) & Hp)
       |[(L0 & e & Re & Hh & Hp & l1 & l2 & l3 & l4 & l5)
        |[(L0 & Hp & l1 & l2 & l3 & l4 & l5 & Hh)
         |(Hp & l1 & l2 & Pm & Hh)]]];
    unfold Inv2.
  - rewrite Hp, c1, c2, c6. unfold previewMirrors in *. rewrite c3, c4, c5.
    repeat split; assumption.
  - rewrite Hp, !forallb_app, E1, E2, l1, l2. unfold previewMirrors.
    rewrite l3, l4, l5. cbn [forallb]. rewrite Hh.
    rewrite (endsWithUser_push _ e Re).
    rewrite (alternating_push _ e A (or_introl Re)).
    rewrite lastIsAssistant_push, Re. repeat split.
  - rewrite Hp, l1, l2. unfold previewMirrors in *. rewrite l3, l4, l5.
    split; [reflexivity|]. split; [exact P|]. split; [exact E1|].
    split; [exact E2|]. split; [|discriminate].
    destruct Hh as [->|(e & Re & ->)]; [exact A|].
    apply alternating_push; [exact A|]. right. now apply L.
  - rewrite Hp, l1, l2.
    split; [exact B|]. split; [exact Pm|]. split; [exact E1|].
    split; [exact E2|].
    destruct Hh as [->|(_ & ->)]; [now split|].
    split; [reflexivity|]. intros _. reflexivity.
Qed.

Lemma run_Inv2 (h : Host) (evs : list Event) :
  forall y y', Inv y -> Inv2 y -> run h evs y = Some y' -> Inv2 y'.
Proof.
  induction evs as [|ev evs IH]; simpl; intros y y' I I2 R.
  - now injection R as <-.
  - destruct (step h ev y) as [y1|] eqn:S; [|discriminate].
    apply (IH y1 y'); [|eapply step_Inv2; eassumption|exact R].
    eapply step_Inv; eassumption.
Qed.

Lemma reachable_Inv2 (h : Host) (evs : list Event) (y : Sys) :
  run h evs initial = Some y -> Inv2 y.
Proof. apply run_Inv2; [apply Inv_initial|apply Inv2_initial]. Qed.

(** X3. In every state the page can reach, the send button is disabled
    exactly while a response is awaited. *)
Theorem sendBtn_tracks_isLoading (h : Host) (evs : list Event) (y : Sys) :
  run h evs initial = Some y ->
  sendBtnDisabled (page y) = isLoading (page y).
Proof. intros R. apply (reachable_Inv2 h evs y R). Qed.

Lemma sendBtn_tracks_isLoading_witness :
  run v8 [Input (lit "hello"); Submit] initial = Some awaiting /\
  sendBtnDisabled (page awaiting) = true /\
  sendBtnDisabled (page awaiting) = isLoading (page awaiting).
Proof.
  split; [reflexivity|]. split; [reflexivity|].
  apply (sendBtn_tracks_isLoading v8 [Input (lit "hello"); Submit] awaiting).
  reflexivity.
Defined.

(** X4. In every state the page can reach, the preview mirrors the
    attachment: it is visible and shows the data of [currentImage] when an
    image is attached, and is hidden with an empty source when none is. *)
Theorem preview_mirrors_attachment (h : Host) (evs : list Event) (y : Sys) :
  run h evs initial = Some y ->
  match currentImage (page y) with
  | Some i =>
      previewVisible (page y) = true /\ previewSrc (page y) = base64 i
  | None => previewVisible (page y) = false /\ previewSrc (page y) = []
  end.
Proof. intros R. apply (reachable_Inv2 h evs y R). Qed.

Lemma preview_mirrors_attachment_witness :
  run v8 attachedRun initial = Some attached /\
  previewVisible (page attached) = true /\
  previewSrc (page attached) = lit "data:image/png;base64,AAAA".
Proof.
  split; [reflexivity|].
  exact (preview_mirrors_attachment v8 attachedRun attached eq_refl).
Defined.

(** X5. Every request body the page ever posts is a history that ends with
    a user entry (so it is never empty) and has no two assistant entries in
    a row. *)
Theorem posted_bodies_end_with_user (h : Host) (evs : list Event) (y : Sys)
    (body : list Entry) :
  run h evs initial = Some y ->
  In body (posted y) ->
  (exists before e, body = before ++ [e] /\ role e = user) /\
  alternating (roles body) = true.
Proof.
  intros R Hin.
  destruct (reachable_Inv2 h evs y R) as (_ & _ & E1 & E2 & _).
  rewrite forallb_forall in E1, E2. specialize (E1 body Hin).
  split; [|exact (E2 body Hin)].
  unfold endsWithUser in E1.
  destruct (rev body) as [|e r] eqn:Er; [discriminate|].
  exists (rev r), e. split.
  - apply (f_equal (@rev Entry)) in Er. now rewrite rev_involutive in Er.
  - now destruct (role e).
Qed.

Lemma posted_bodies_end_with_user_witness :
  run v8 [Input (lit "hello"); Submit] initial = Some awaiting /\
  In [{| role := user; content := [TextPart (JStr (lit "hello"))] |}]
     (posted awaiting) /\
  alternating
    (roles [{| role := user; content := [TextPart (JStr (lit "hello"))] |}])
  = true.
Proof.
  assert (Hin : In [{| role := user; content := [TextPart (JStr (lit "hello"))] |}]
                   (posted awaiting)) by (left; reflexivity).
  split; [reflexivity|]. split; [exact Hin|].
  exact (proj2 (posted_bodies_end_with_user v8
                  [Input (lit "hello"); Submit] awaiting _ eq_refl Hin)).
Defined.

(** X6. In every state the page can reach, the history has no two assistant
    entries in a row, and while a response is awaited it is empty or ends
    with a user entry. *)
Theorem history_alternates (h : Host) (evs : list Event) (y : Sys) :
  run h evs initial = Some y ->
  alternating (roles (messageHistory (page y))) = true /\
  (isLoading (page y) = true ->
   lastIsAssistant (messageHistory (page y)) = false).
Proof.
  intros R. destruct (reachable_Inv2 h evs y R) as (_ & _ & _ & _ & A & L).
  now split.
Qed.

Lemma history_alternates_witness :
  run v8 twoExchanges initial = Some (after v8 twoExchanges) /\
  roles (messageHistory (page (after v8 twoExchanges)))
  = [user; user; assistant] /\
  alternating (roles (messageHistory (page (after v8 twoExchanges)))) = true.
Proof.
  split; [vm_compute; reflexivity|]. split; [vm_compute; reflexivity|].
  refine (proj1 (history_alternates v8 twoExchanges (after v8 twoExchanges) _)).
  vm_compute; reflexivity.
Defined.

(** X7. In every state the page can reach there is at most one typing
    indicator; there is none unless a response is awaited, and one is shown
    only while the fetch itself is outstanding. *)
Theorem typing_indicator_only_while_fetching (h : Host) (evs : list Event)
    (y : Sys) :
  run h evs initial = Some y ->
  typingCount (messagesArea (page y)) <= 1 /\
  (isLoading (page y) = false -> typingCount (messagesArea (page y)) = 0) /\
  (typingCount (messagesArea (page y)) = 1 -> sends y = [AwaitFetch]).
Proof.
  intros R. pose proof (reachable_Inv h evs y R) as I. unfold Inv in I.
  destruct (sends y) as [|[| |] [|]]; try contradiction;
    destruct I as [L T]; rewrite L, ?T;
    (split; [lia|]); (split; [intros; congruence || lia|intros; congruence || lia]).
Qed.

Lemma typing_indicator_only_while_fetching_witness :
  run v8 [Input (lit "hello"); Submit] initial = Some awaiting /\
  typingCount (messagesArea (page awaiting)) = 1 /\
  sends awaiting = [AwaitFetch].
Proof.
  split; [reflexivity|]. split; [reflexivity|].
  apply (typing_indicator_only_while_fetching v8
           [Input (lit "hello"); Submit] awaiting); reflexivity.
Defined.

(** X8. The page never gets stuck. In every state it can reach, [isLoading]
    is set only while a call of [sendMessage] is suspended, whose settling
    will reset it; and when none is suspended, a submission whose input has
    a character other than white space is accepted and posts its request. *)
Theorem submit_accepted_when_idle (h : Host) (evs : list Event) (y : Sys) :
  run h evs initial = Some y ->
  (isLoading (page y) = true -> exists k, sends y = [k]) /\
  (sends y = [] ->
   existsb (fun c => negb (isWhiteSpace c)) (messageInput (page y)) = true ->
   exists y',
     step h Submit y = Some y' /\
     sends y' = [AwaitFetch] /\
     posted y' = posted y ++ [messageHistory (page y')] /\
     isLoading (page y') = true).
Proof.
  intros R. pose proof (reachable_Inv h evs y R) as I. unfold Inv in I. split.
  - intros L. destruct (sends y) as [|k [|k' l]].
    + destruct I. congruence.
    + now exists k.
    + destruct k; contradiction.
  - intros Es Hx. rewrite Es in I. destruct I as [L _].
    pose proof (trim_nonblank _ Hx) as Ht.
    destruct (sendMessage_effect (trim (messageInput (page y)))
                (currentImage (page y)) (page y) L) as (im & bu & E).
    assert (E' : handleSubmit (page y)
                 = sendMessage (trim (messageInput (page y)))
                     (currentImage (page y)) (page y)).
    { unfold handleSubmit.
      destruct (trim (messageInput (page y))); [congruence|reflexivity]. }
    eexists. cbn [step]. rewrite E', E. cbn [snd fst].
    split; [reflexivity|]. rewrite Es. repeat split.
Qed.

Lemma submit_accepted_when_idle_witness :
  run v8 twoExchanges initial = Some (after v8 twoExchanges) /\
  sends (after v8 twoExchanges) = [] /\
  exists y',
    step v8 Submit (setPage (setMessageInput (lit " more ")
                               (page (after v8 twoExchanges)))
                      (after v8 twoExchanges)) = Some y' /\
    sends y' = [AwaitFetch].
Proof.
  assert (R : run v8 (twoExchanges ++ [Input (lit " more ")]) initial
              = Some (setPage (setMessageInput (lit " more ")
                                 (page (after v8 twoExchanges)))
                        (after v8 twoExchanges)))
    by (vm_compute; reflexivity).
  split; [vm_compute; reflexivity|]. split; [vm_compute; reflexivity|].
  destruct (proj2 (submit_accepted_when_idle v8 _ _ R))
    as (y' & S & Es & _); [vm_compute; reflexivity|vm_compute; reflexivity|].
  exists y'. now split.
Defined.

(** X9. Entries are only ever appended: in every state the page can reach,
    any event other than a click on the clear button leaves the history as
    it was or adds exactly one entry at its end. *)
Theorem history_append_only (h : Host) (evs : list Event) (ev : Event)
    (y y' : Sys) :
  run h evs initial = Some y ->
  step h ev y = Some y' ->
  ev <> ClearChatClick ->
  messageHistory (page y') = messageHistory (page y) \/
  exists e, messageHistory (page y') = messageHistory (page y) ++ [e].
Proof.
  intros R S Hev. pose proof (reachable_Inv h evs y R) as I.
  destruct (step_shape h ev y y' I S)
    as [((_ & _ & _ & _ & _ & c6) & _)
       |[(_ & e & _ & Hh & _)
        |[(_ & _ & _ & _ & _ & _ & _ & Hh)
         |(_ & _ & _ & _ & Hh)]]].
  - now left.
  - right. now exists e.
  - destruct Hh as [->|(e & _ & ->)]; [now left|right; now exists e].
  - destruct Hh as [->|[E _]]; [now left|contradiction].
Qed.

Lemma history_append_only_witness :
  run v8 reportSent initial = Some (after v8 reportSent) /\
  step v8 (BodySettled 0 (Ok completionBody)) (after v8 reportSent)
  = Some (after v8 (reportSent ++ [BodySettled 0 (Ok completionBody)])) /\
  BodySettled 0 (Ok completionBody) <> ClearChatClick /\
  (messageHistory (page (after v8 (reportSent ++ [BodySettled 0 (Ok completionBody)])))
   = messageHistory (page (after v8 reportSent)) \/
   exists e,
     messageHistory (page (after v8 (reportSent ++ [BodySettled 0 (Ok completionBody)])))
     = messageHistory (page (after v8 reportSent)) ++ [e]).
Proof.
  assert (R : run v8 reportSent initial = Some (after v8 reportSent))
    by (vm_compute; reflexivity).
  assert (S : step v8 (BodySettled 0 (Ok completionBody)) (after v8 reportSent)
              = Some (after v8 (reportSent ++ [BodySettled 0 (Ok completionBody)])))
    by (vm_compute; reflexivity).
  assert (N : BodySettled 0 (Ok completionBody) <> ClearChatClick)
    by discriminate.
  split; [exact R|]. split; [exact S|]. split; [exact N|].
  exact (history_append_only v8 reportSent _ _ _ R S N).
Defined.

(** ** Clearing, attaching, indicating *)

(** X10. The first message sent from the page as served removes the welcome
    placeholder, but the placeholder that [clearChat] restores is not the
    element [removeWelcomeMessage] knows: a message sent after a clear is
    rendered below it, and it stays. *)
Theorem welcome_survives_send_after_clear (text : jsstring)
    (image : option Image) (s : Page) :
  isLoading s = false ->
  exists userMessage,
    createMessageElement user (JStr text) (option_map base64 image)
    = Ok userMessage /\
    messagesArea (fst (sendMessage text image (clearChat s)))
    = [Welcome false; userMessage; TypingIndicator] /\
    (messagesArea s = [Welcome true] ->
     messagesArea (fst (sendMessage text image s))
     = [userMessage; TypingIndicator]).
Proof.
  intros L.
  destruct (createMessageElement_string user text (option_map base64 image))
    as (im & bu & E).
  exists (Message user im bu). split; [exact E|]. split.
  - unfold sendMessage.
    change (isLoading (clearChat s)) with (isLoading s). rewrite L, E.
    reflexivity.
  - intros A. unfold sendMessage. rewrite L, E. cbn. rewrite A. reflexivity.
Qed.

Lemma welcome_survives_send_after_clear_witness :
  isLoading initialPage = false /\
  messagesArea (fst (sendMessage (lit "hi") None (clearChat initialPage)))
  = [Welcome false; Message user None (Some (lit "hi")); TypingIndicator] /\
  messagesArea (fst (sendMessage (lit "hi") None initialPage))
  = [Message user None (Some (lit "hi")); TypingIndicator].
Proof.
  destruct (welcome_survives_send_after_clear (lit "hi") None initialPage eq_refl)
    as (el & E & A & B).
  assert (El : el = Message user None (Some (lit "hi"))).
  { vm_compute in E. now injection E as <-. }
  rewrite El in A, B.
  split; [reflexivity|]. split; [exact A|exact (B eq_refl)].
Defined.

(** X11. Clearing the chat does not cancel a request: the flag and the
    disabled button stay as they are, and when the body of the response then
    settles as a parsed value other than [null], the reply becomes the only
    entry of the history, with no user entry before it. *)
Theorem reply_after_clear_stands_alone (h : Host) (data : json) (s : Page) :
  data <> JNull ->
  isLoading (clearChat s) = isLoading s /\
  sendBtnDisabled (clearChat s) = sendBtnDisabled s /\
  exists c,
    assistantContentOf data = Ok c /\
    messageHistory (sendMessage_body h (Ok data) (clearChat s))
    = [{| role := assistant; content := [TextPart c] |}].
Proof.
  intros Hd. split; [reflexivity|]. split; [reflexivity|].
  destruct (assistantContentOf_nonnull _ Hd) as (c & Ec & _).
  exists c. split; [exact Ec|].
  now rewrite (sendMessage_body_appends h data c (clearChat s) Ec).
Qed.

Lemma reply_after_clear_stands_alone_witness :
  completionBody <> JNull /\
  roles (messageHistory
           (page (after v8 [Input (lit "hi"); Submit; ClearChatClick;
                            FetchResolved 0 200;
                            BodySettled 0 (Ok completionBody)])))
  = [assistant].
Proof.
  assert (Hd : completionBody <> JNull) by discriminate.
  split; [exact Hd|].
  destruct (reply_after_clear_stands_alone v8 completionBody
              (page (after v8 [Input (lit "hi"); Submit])) Hd)
    as (_ & _ & c & _ & Hh).
  change (roles (messageHistory
            (sendMessage_body v8 (Ok completionBody)
               (clearChat (page (after v8 [Input (lit "hi"); Submit])))))
          = [assistant]).
  rewrite Hh. reflexivity.
Defined.

(** X12. Removing the image undoes an attachment completely: whatever was
    read and whatever the page was, the result is the page with no image, an
    empty hidden preview and an empty file input; removing again changes
    nothing. *)
Theorem removeImage_undoes_attachment (file : File) (base64Data : jsstring)
    (s : Page) :
  removeImage (reader_onload file base64Data s) = removeImage s /\
  removeImage (removeImage s) = removeImage s /\
  currentImage (removeImage s) = None /\
  previewVisible (removeImage s) = false /\
  previewSrc (removeImage s) = [] /\
  fileInputValue (removeImage s) = [] /\
  messageHistory (removeImage s) = messageHistory s /\
  messagesArea (removeImage s) = messagesArea s.
Proof. repeat split. Qed.

Lemma removeFirstIndicator_last (l : list Node) :
  typingCount l = 0 -> removeFirstIndicator (l ++ [TypingIndicator]) = l.
Proof.
  induction l as [|n l IH]; [reflexivity|].
  unfold typingCount in *. simpl.
  destruct (isTypingIndicator n); simpl; [discriminate|].
  intros H. now rewrite IH.
Qed.

(** X13. On a page that shows no typing indicator, showing one and removing
    it gives the page back; and removing when none is shown does nothing. *)
Theorem typing_indicator_round_trip (s : Page) :
  typingCount (messagesArea s) = 0 ->
  removeTypingIndicator (showTypingIndicator s) = s /\
  removeTypingIndicator s = s.
Proof.
  intros T. unfold removeTypingIndicator, showTypingIndicator, appendChild.
  cbn [messagesArea setMessagesArea].
  rewrite (removeFirstIndicator_last _ T), (removeFirstIndicator_absent _ T).
  destruct s; split; reflexivity.
Qed.

Lemma typing_indicator_round_trip_witness :
  typingCount (messagesArea initialPage) = 0 /\
  removeTypingIndicator (showTypingIndicator initialPage) = initialPage.
Proof.
  split; [reflexivity|].
  exact (proj1 (typing_indicator_round_trip initialPage eq_refl)).
Defined.

(** ** More on the formatter *)

Lemma serializeText_app (a b : jsstring) :
  serializeText (a ++ b) = serializeText a ++ serializeText b.
Proof. apply flat_map_app. Qed.

Lemma replaceNewlines_app (a b : jsstring) :
  replaceNewlines (a ++ b) = replaceNewlines a ++ replaceNewlines b.
Proof. apply flat_map_app. Qed.

Lemma serializeChar_cases (c : N) :
  (c = 38%N /\ serializeChar c = [38; 97; 109; 112; 59]%N) \/
  (c = 160%N /\ serializeChar c = [38; 110; 98; 115; 112; 59]%N) \/
  (c = 60%N /\ serializeChar c = [38; 108; 116; 59]%N) \/
  (c = 62%N /\ serializeChar c = [38; 103; 116; 59]%N) \/
  (c <> 38%N /\ serializeChar c = [c]).
Proof.
  unfold serializeChar.
  destruct (N.eqb_spec c 38); [subst; auto|].
  destruct (N.eqb_spec c 160); [subst; auto 6|].
  destruct (N.eqb_spec c 60); [subst; auto 6|].
  destruct (N.eqb_spec c 62); [subst; auto 6|].
  auto 6.
Qed.

(** X14. Escaping loses nothing: two texts with the same escaped form are
    the same text. *)
Theorem escapeHtml_injective (a b : jsstring) :
  escapeHtml (JStr a) = escapeHtml (JStr b) -> a = b.
Proof.
  intros H. assert (E : serializeText a = serializeText b).
  { cbn in H. now injection H. }
  clear H. revert b E.
  induction a as [|x a IH]; intros [|y b] E.
  - reflexivity.
  - exfalso. cbn [serializeText flat_map] in E.
    destruct (serializeChar_cases y) as [[_ R]|[[_ R]|[[_ R]|[[_ R]|[_ R]]]]];
      rewrite R in E; discriminate.
  - exfalso. cbn [serializeText flat_map] in E.
    destruct (serializeChar_cases x) as [[_ R]|[[_ R]|[[_ R]|[[_ R]|[_ R]]]]];
      rewrite R in E; discriminate.
  - cbn [serializeText flat_map] in E.
    fold (serializeText a) in E. fold (serializeText b) in E.
    destruct (serializeChar_cases x)
      as [[Hx Rx]|[[Hx Rx]|[[Hx Rx]|[[Hx Rx]|[Hx Rx]]]]];
    destruct (serializeChar_cases y)
      as [[Hy Ry]|[[Hy Ry]|[[Hy Ry]|[[Hy Ry]|[Hy Ry]]]]];
    rewrite Rx, Ry in E; cbn [app] in E; try discriminate;
    try (injection E as E; subst; f_equal; now apply IH);
    try (injection E as E0 E; congruence).
Qed.

Lemma escapeHtml_injective_witness :
  escapeHtml (JStr (lit "a<b")) = escapeHtml (JStr (lit "a<b")) /\
  lit "a<b" = lit "a<b".
Proof.
  split; [reflexivity|].
  apply (escapeHtml_injective (lit "a<b") (lit "a<b")). reflexivity.
Defined.

Lemma forallb_impl (p q : N -> bool) (s : jsstring) :
  (forall c, p c = true -> q c = true) ->
  forallb p s = true -> forallb q s = true.
Proof.
  intros H. induction s as [|c s IH]; [reflexivity|]. simpl.
  intros E. apply andb_prop in E as [Ec Es]. now rewrite (H c Ec), IH.
Qed.

Lemma isLineTerminator_not_star (c : N) :
  isLineTerminator c = true -> N.eqb c 42 = false.
Proof.
  unfold isLineTerminator. intros H.
  destruct (N.eqb_spec c 42) as [->|]; [discriminate|reflexivity].
Qed.

Lemma spanChar_spec (c : N) :
  spanChar c = true ->
  N.eqb c 42 = false /\ isLineTerminator c = false /\ N.eqb c 10 = false.
Proof.
  unfold spanChar. intros H. apply andb_prop in H as [H1 H2].
  apply negb_true_iff in H1, H2. repeat split; try assumption.
  unfold isLineTerminator in H2. now destruct (N.eqb c 10).
Qed.

Lemma matchBold_nostar (x : N) (s : jsstring) :
  N.eqb x 42 = false -> matchBold (x :: s) = None.
Proof.
  intros H. unfold matchBold. change (lit "**") with [42%N; 42%N].
  cbn [startsWith]. now rewrite N.eqb_sym, H.
Qed.

Lemma replaceBold_nostar_prefix (a s : jsstring) :
  forallb (fun c => negb (N.eqb c 42)) a = true ->
  replaceBold (a ++ s) = a ++ replaceBold s.
Proof.
  induction a as [|x a IH]; [reflexivity|]. simpl.
  intros H. apply andb_prop in H as [Hx Ha]. apply negb_true_iff in Hx.
  rewrite replaceBold_step, (matchBold_nostar x (a ++ s) Hx). now rewrite IH.
Qed.

Lemma lazyGroup_found (g rest : jsstring) :
  forallb spanChar g = true ->
  lazyGroup (g ++ 42%N :: 42%N :: rest) = Some (g, rest).
Proof.
  induction g as [|c g IH]; [reflexivity|]. simpl app.
  intros H. cbn [forallb] in H. apply andb_prop in H as [Hc Hg].
  destruct (spanChar_spec c Hc) as (H1 & H2 & _).
  cbn [lazyGroup]. change (lit "**") with [42%N; 42%N]. cbn [startsWith].
  rewrite N.eqb_sym, H1, H2. cbn [andb]. now rewrite (IH Hg).
Qed.

Lemma lazyGroup_broken (a : jsstring) (c : N) (rest : jsstring) :
  forallb (fun c => negb (N.eqb c 42)) a = true ->
  isLineTerminator c = true ->
  lazyGroup (a ++ c :: rest) = None.
Proof.
  intros Ha Hc. induction a as [|x a IH]; simpl app.
  - cbn [lazyGroup]. change (lit "**") with [42%N; 42%N]. cbn [startsWith].
    now rewrite N.eqb_sym, (isLineTerminator_not_star c Hc), Hc.
  - cbn [forallb] in Ha. apply andb_prop in Ha as [Hx Ha'].
    apply negb_true_iff in Hx.
    cbn [lazyGroup]. change (lit "**") with [42%N; 42%N]. cbn [startsWith].
    rewrite N.eqb_sym, Hx. cbn [andb].
    destruct (isLineTerminator x); [reflexivity|]. now rewrite (IH Ha').
Qed.

(** A property of characters that the five entities satisfy carries over
    from a text to its escaped form. *)
Lemma serializeText_forallb (p : N -> bool) (s : jsstring) :
  forallb p [38; 97; 109; 112; 59; 110; 98; 115; 108; 116; 103]%N = true ->
  forallb p s = true -> forallb p (serializeText s) = true.
Proof.
  intros He. induction s as [|c s IH]; [reflexivity|].
  cbn [forallb serializeText flat_map]. fold (serializeText s).
  intros H. apply andb_prop in H as [Hc Hs].
  rewrite forallb_app, (IH Hs), andb_true_r.
  cbn [forallb] in He. repeat (apply andb_prop in He as [? He]).
  destruct (serializeChar_cases c)
    as [[_ R]|[[_ R]|[[_ R]|[[_ R]|[_ R]]]]]; rewrite R; cbn [forallb];
    repeat (apply andb_true_intro; split); auto.
Qed.

Lemma replaceNewlines_noLF (s : jsstring) :
  forallb (fun c => negb (N.eqb c 10)) s = true -> replaceNewlines s = s.
Proof.
  induction s as [|c s IH]; [reflexivity|].
  cbn [forallb replaceNewlines flat_map]. fold (replaceNewlines s).
  intros H. apply andb_prop in H as [Hc Hs]. apply negb_true_iff in Hc.
  now rewrite Hc, (IH Hs).
Qed.

Lemma serializeText_plain (s : jsstring) :
  forallb plainChar s = true -> serializeText s = s.
Proof.
  induction s as [|c s IH]; [reflexivity|].
  cbn [forallb serializeText flat_map]. fold (serializeText s).
  intros H. apply andb_prop in H as [Hc Hs]. rewrite (IH Hs).
  unfold plainChar in Hc. unfold serializeChar.
  destruct (N.eqb c 38); [discriminate|].
  destruct (N.eqb c 160); [discriminate|].
  destruct (N.eqb c 60); [discriminate|].
  destruct (N.eqb c 62); [discriminate|]. reflexivity.
Qed.

(** X15. Text without markup characters, stars and line feeds comes out of
    the formatter exactly as it went in. *)
Theorem formatMessageText_plain (text : jsstring) :
  forallb plainChar text = true ->
  formatMessageText (JStr text) = Ok text.
Proof.
  intros H. rewrite formatMessageText_string, (serializeText_plain text H).
  assert (Hs : forallb (fun c => negb (N.eqb c 42)) text = true).
  { apply (forallb_impl plainChar); [|exact H].
    intros c Hc. unfold plainChar in Hc.
    destruct (N.eqb c 42); [|reflexivity].
    now rewrite !andb_false_r in Hc. }
  assert (Hn : forallb (fun c => negb (N.eqb c 10)) text = true).
  { apply (forallb_impl plainChar); [|exact H].
    intros c Hc. unfold plainChar in Hc.
    destruct (N.eqb c 10); [|reflexivity].
    now rewrite !andb_false_r in Hc. }
  pose proof (replaceBold_nostar_prefix text [] Hs) as E.
  rewrite app_nil_r in E. change (replaceBold []) with (@nil N) in E.
  rewrite app_nil_r in E. now rewrite E, (replaceNewlines_noLF text Hn).
Qed.

Lemma formatMessageText_plain_witness :
  forallb plainChar (lit "Summary: the button is broken.") = true /\
  formatMessageText (JStr (lit "Summary: the button is broken."))
  = Ok (lit "Summary: the button is broken.").
Proof.
  split; [reflexivity|].
  apply (formatMessageText_plain (lit "Summary: the button is broken.")).
  reflexivity.
Defined.

Lemma serializeText_noStar (p : jsstring) :
  forallb (fun c => negb (N.eqb c 42)) p = true ->
  forallb (fun c => negb (N.eqb c 42)) (serializeText p) = true.
Proof. apply serializeText_forallb. reflexivity. Qed.

(** Text without stars is escaped and broken into lines, nothing else; and
    in front of any text it is formatted on its own. *)
Lemma format_noStar_prefix (p s : jsstring) :
  forallb (fun c => negb (N.eqb c 42)) p = true ->
  replaceNewlines (replaceBold (serializeText p ++ s))
  = replaceNewlines (replaceBold (serializeText p))
    ++ replaceNewlines (replaceBold s).
Proof.
  intros Hp. pose proof (serializeText_noStar p Hp) as Hs.
  rewrite (replaceBold_nostar_prefix _ s Hs).
  pose proof (replaceBold_nostar_prefix _ [] Hs) as E.
  rewrite app_nil_r in E. change (replaceBold []) with (@nil N) in E.
  rewrite app_nil_r in E. rewrite E. apply replaceNewlines_app.
Qed.

Lemma format_first_span (p g rest : jsstring) :
  forallb (fun c => negb (N.eqb c 42)) p = true ->
  forallb spanChar g = true ->
  replaceNewlines
    (replaceBold (serializeText (p ++ lit "**" ++ g ++ lit "**" ++ rest)))
  = replaceNewlines (replaceBold (serializeText p))
    ++ lit "<strong>" ++ serializeText g ++ lit "</strong>"
    ++ replaceNewlines (replaceBold (serializeText rest)).
Proof.
  intros Hp Hg. rewrite serializeText_app, (format_noStar_prefix p _ Hp).
  f_equal. rewrite !serializeText_app.
  change (serializeText (lit "**")) with [42%N; 42%N].
  assert (Hs : forallb spanChar (serializeText g) = true)
    by (apply serializeText_forallb; [reflexivity|exact Hg]).
  assert (Hn : forallb (fun c => negb (N.eqb c 10)) (serializeText g) = true).
  { apply (forallb_impl spanChar); [|exact Hs].
    intros c Hc. destruct (spanChar_spec c Hc) as (_ & _ & ->). reflexivity. }
  cbn [app]. rewrite replaceBold_step. unfold matchBold.
  change (startsWith (lit "**")
            (42%N :: 42%N :: serializeText g ++ 42%N :: 42%N :: serializeText rest))
    with true.
  cbn [skipn]. rewrite (lazyGroup_found _ (serializeText rest) Hs).
  rewrite !replaceNewlines_app, (replaceNewlines_noLF _ Hn). reflexivity.
Qed.

(** X16. The first pair of stars of a text, when it is followed by a span
    that holds no star and no line terminator and then by a second pair,
    opens a [strong] element that holds the escaped span and is closed by
    that second pair; the text before the first pair is formatted as it
    stands and the text after the second pair is formatted on its own. *)
Theorem formatMessageText_bold_span (p g rest before html : jsstring) :
  forallb (fun c => negb (N.eqb c 42)) p = true ->
  forallb spanChar g = true ->
  formatMessageText (JStr p) = Ok before ->
  formatMessageText (JStr rest) = Ok html ->
  formatMessageText (JStr (p ++ lit "**" ++ g ++ lit "**" ++ rest))
  = Ok (before ++ lit "<strong>" ++ serializeText g ++ lit "</strong>" ++ html).
Proof.
  intros Hp Hg Hb Hr. rewrite formatMessageText_string in *.
  injection Hb as <-. injection Hr as <-.
  now rewrite (format_first_span p g rest Hp Hg).
Qed.

Lemma formatMessageText_bold_span_witness :
  forallb (fun c => negb (N.eqb c 42)) (lit "see <b>: ") = true /\
  forallb spanChar (lit "Title: a < b") = true /\
  formatMessageText (JStr (lit "see <b>: **Title: a < b** & **more**"))
  = Ok (lit "see &lt;b&gt;: <strong>Title: a &lt; b</strong> &amp; <strong>more</strong>") /\
  formatMessageText (JStr (lit "**x**b**")) = Ok (lit "<strong>x</strong>b**").
Proof.
  split; [reflexivity|]. split; [reflexivity|]. split.
  - exact (formatMessageText_bold_span (lit "see <b>: ") (lit "Title: a < b")
             (lit " & **more**") (lit "see &lt;b&gt;: ")
             (lit " &amp; <strong>more</strong>")
             eq_refl eq_refl eq_refl eq_refl).
  - exact (formatMessageText_bold_span [] (lit "x") (lit "b**") []
             (lit "b**") eq_refl eq_refl eq_refl eq_refl).
Defined.



Lemma matchBold_group (s g rest : jsstring) :
  matchBold s = Some (g, rest) ->
  forallb (fun c => negb (isLineTerminator c)) g = true.
Proof.
  unfold matchBold. destruct (startsWith (lit "**") s); [|discriminate].
  intros H. now destruct (lazyGroup_sound _ _ _ H).
Qed.

Lemma format_Balanced (s : jsstring) :
  forallb noAngle s = true -> Balanced (replaceNewlines (replaceBold s)).
Proof.
  remember (List.length s) as n eqn:Hn. revert s Hn.
  induction n as [n IH] using lt_wf_ind. intros s Hn Hs.
  destruct s as [|c s']; [constructor|].
  rewrite replaceBold_step.
  destruct (matchBold (c :: s')) as [[g rest]|] eqn:E.
  - pose proof (matchBold_shorter _ _ _ E) as Hl.
    pose proof (matchBold_group _ _ _ E) as Hg.
    apply matchBold_sound in E. rewrite E in Hs.
    change (forallb noAngle ([42%N; 42%N] ++ g ++ [42%N; 42%N] ++ rest) = true) in Hs.
    rewrite !forallb_app in Hs.
    apply andb_prop in Hs as [_ Hs]. apply andb_prop in Hs as [Ha Hs].
    apply andb_prop in Hs as [_ Hr].
    assert (Hf : forallb (fun c => negb (N.eqb c 10)) g = true).
    { apply (forallb_impl (fun c => negb (isLineTerminator c))); [|exact Hg].
      intros x Hx. unfold isLineTerminator in Hx. now destruct (N.eqb x 10). }
    rewrite !replaceNewlines_app, (replaceNewlines_noLF g Hf).
    change (replaceNewlines (lit "<strong>")) with (lit "<strong>").
    change (replaceNewlines (lit "</strong>")) with (lit "</strong>").
    apply Balanced_strong; [exact Ha|exact Hg|].
    apply (IH (List.length rest)); [subst n; exact Hl|reflexivity|exact Hr].
  - cbn [forallb] in Hs. apply andb_prop in Hs as [Hc Hs'].
    cbn [replaceNewlines flat_map]. fold (replaceNewlines (replaceBold s')).
    assert (B : Balanced (replaceNewlines (replaceBold s')))
      by (apply (IH (List.length s')); [subst n; simpl; lia|reflexivity|exact Hs']).
    destruct (N.eqb c 10) eqn:E10.
    + now apply Balanced_br.
    + now apply Balanced_char.
Qed.

(** X18. The formatter never leaves a tag open. Whatever the text, its
    result is made of text without angle brackets or line feeds, of [br]
    elements, and of [strong] elements that are closed, are not nested, and
    hold the text of a single line. *)
Theorem formatMessageText_balanced (text : jsstring) :
  exists html,
    formatMessageText (JStr text) = Ok html /\ Balanced html.
Proof.
  eexists. split; [apply formatMessageText_string|].
  apply format_Balanced, serializeText_noAngle.
Qed.

(** ** The formatter, rule by rule *)

Lemma startsWith_stars_line (x c : N) (s t : jsstring) :
  isLineTerminator c = true ->
  startsWith (lit "**") (x :: s ++ c :: t) = startsWith (lit "**") (x :: s).
Proof.
  intros Hc. change (lit "**") with [42%N; 42%N].
  destruct s as [|y s]; [|reflexivity].
  cbn [app startsWith].
  now rewrite (N.eqb_sym 42 c), (isLineTerminator_not_star c Hc), !andb_false_r.
Qed.

(** A line terminator ends every attempt of the lazy group: what lies
    behind it has no say in a match before it. *)
Lemma lazyGroup_line (s : jsstring) (c : N) (t : jsstring) :
  isLineTerminator c = true ->
  lazyGroup (s ++ c :: t)
  = match lazyGroup s with
    | Some (g, rest) => Some (g, rest ++ c :: t)
    | None => None
    end.
Proof.
  intros Hc. induction s as [|x s IH].
  - cbn [app lazyGroup]. change (lit "**") with [42%N; 42%N]. cbn [startsWith].
    now rewrite (N.eqb_sym 42 c), (isLineTerminator_not_star c Hc), Hc.
  - change ((x :: s) ++ c :: t) with (x :: s ++ c :: t). cbn [lazyGroup].
    rewrite (startsWith_stars_line x c s t Hc).
    destruct (startsWith (lit "**") (x :: s)) eqn:E.
    + destruct (startsWith_stars _ E) as [r Er]. injection Er as -> ->.
      reflexivity.
    + destruct (isLineTerminator x); [reflexivity|]. rewrite IH.
      now destruct (lazyGroup s) as [[g rest]|].
Qed.

Lemma matchBold_line (s : jsstring) (c : N) (t : jsstring) :
  isLineTerminator c = true ->
  matchBold (s ++ c :: t)
  = match matchBold s with
    | Some (g, rest) => Some (g, rest ++ c :: t)
    | None => None
    end.
Proof.
  intros Hc. destruct s as [|x s].
  - cbn [app]. now rewrite (matchBold_nostar c t (isLineTerminator_not_star c Hc)).
  - change ((x :: s) ++ c :: t) with (x :: s ++ c :: t). unfold matchBold.
    rewrite (startsWith_stars_line x c s t Hc).
    destruct (startsWith (lit "**") (x :: s)) eqn:E; [|reflexivity].
    destruct (startsWith_stars _ E) as [r Er]. injection Er as -> ->.
    cbn [app skipn]. now apply lazyGroup_line.
Qed.

(** The bold rewriting works line by line. *)
Lemma replaceBold_line (a : jsstring) (c : N) (b : jsstring) :
  isLineTerminator c = true ->
  replaceBold (a ++ c :: b) = replaceBold a ++ c :: replaceBold b.
Proof.
  intros Hc. remember (List.length a) as n eqn:Hn. revert a Hn.
  induction n as [n IH] using lt_wf_ind. intros a Hn.
  destruct a as [|x a].
  - cbn [app]. rewrite replaceBold_step.
    now rewrite (matchBold_nostar c b (isLineTerminator_not_star c Hc)).
  - change ((x :: a) ++ c :: b) with (x :: (a ++ c :: b)).
    rewrite !replaceBold_step.
    change (x :: (a ++ c :: b)) with ((x :: a) ++ c :: b).
    rewrite (matchBold_line (x :: a) c b Hc).
    destruct (matchBold (x :: a)) as [[g rest]|] eqn:E.
    + pose proof (matchBold_shorter _ _ _ E) as Hl.
      rewrite (IH (List.length rest)); [|subst n; exact Hl|reflexivity].
      now rewrite <- !app_assoc.
    + rewrite (IH (List.length a)); [reflexivity|subst n; simpl; lia|reflexivity].
Qed.

Lemma serializeChar_lineTerminator (c : N) :
  isLineTerminator c = true -> serializeChar c = [c].
Proof.
  intros Hc.
  destruct (serializeChar_cases c)
    as [[-> _]|[[-> _]|[[-> _]|[[-> _]|[_ ->]]]]]; try discriminate.
  reflexivity.
Qed.

Lemma format_line (a : jsstring) (c : N) (b : jsstring) :
  isLineTerminator c = true ->
  replaceNewlines (replaceBold (serializeText (a ++ c :: b)))
  = replaceNewlines (replaceBold (serializeText a))
    ++ (if N.eqb c 10 then lit "<br>" else [c])
    ++ replaceNewlines (replaceBold (serializeText b)).
Proof.
  intros Hc. change (c :: b) with ([c] ++ b). rewrite !serializeText_app.
  assert (E : serializeText [c] = [c]).
  { cbn. rewrite (serializeChar_lineTerminator c Hc). reflexivity. }
  rewrite E. cbn [app]. rewrite (replaceBold_line _ c _ Hc).
  change (replaceBold (serializeText a) ++ c :: replaceBold (serializeText b))
    with (replaceBold (serializeText a) ++ [c] ++ replaceBold (serializeText b)).
  rewrite !replaceNewlines_app. cbn [replaceNewlines flat_map].
  now rewrite app_nil_r.
Qed.

Lemma lazyGroup_noStar (s : jsstring) :
  forallb (fun c => negb (N.eqb c 42)) s = true -> lazyGroup s = None.
Proof.
  induction s as [|x s IH]; [reflexivity|]. cbn [forallb lazyGroup].
  intros H. apply andb_prop in H as [Hx Hs]. apply negb_true_iff in Hx.
  change (lit "**") with [42%N; 42%N]. cbn [startsWith].
  rewrite (N.eqb_sym 42 x), Hx. cbn [andb].
  destruct (isLineTerminator x); [reflexivity|]. now rewrite (IH Hs).
Qed.

Lemma format_unclosed (p a : jsstring) :
  forallb (fun c => negb (N.eqb c 42)) p = true ->
  forallb (fun c => negb (N.eqb c 42)) a = true ->
  replaceNewlines (replaceBold (serializeText (p ++ lit "**" ++ a)))
  = replaceNewlines (replaceBold (serializeText p))
    ++ lit "**" ++ replaceNewlines (replaceBold (serializeText a)).
Proof.
  intros Hp Ha. rewrite serializeText_app, (format_noStar_prefix p _ Hp).
  f_equal. rewrite serializeText_app.
  change (serializeText (lit "**")) with [42%N; 42%N].
  pose proof (serializeText_noStar a Ha) as Hs.
  cbn [app]. rewrite replaceBold_step. unfold matchBold at 1.
  change (startsWith (lit "**") (42%N :: 42%N :: serializeText a)) with true.
  cbn [skipn]. rewrite (lazyGroup_noStar _ Hs). rewrite replaceBold_step.
  assert (Em : matchBold (42%N :: serializeText a) = None).
  { unfold matchBold. change (lit "**") with [42%N; 42%N]. cbn [startsWith].
    destruct (serializeText a) as [|x sa]; [reflexivity|].
    cbn [forallb] in Hs. apply andb_prop in Hs as [Hx _].
    apply negb_true_iff in Hx. now rewrite (N.eqb_sym 42 x), Hx, andb_false_r. }
  rewrite Em. reflexivity.
Qed.

Lemma replaceNewlines_noLineFeed (s : jsstring) :
  forallb (fun c => negb (N.eqb c 10)) (replaceNewlines s) = true.
Proof.
  induction s as [|c s IH]; [reflexivity|].
  cbn [replaceNewlines flat_map]. fold (replaceNewlines s).
  rewrite forallb_app, IH, andb_true_r.
  destruct (N.eqb c 10) eqn:E; [reflexivity|]. cbn. now rewrite E.
Qed.



(** ** Theme *)

Lemma toggleTheme_explicit (t : Theme) :
  storedTheme (toggleTheme t) = dataTheme (toggleTheme t) /\
  (dataTheme (toggleTheme t) = Some (lit "light") \/
   dataTheme (toggleTheme t) = Some (lit "dark")).
Proof.
  unfold toggleTheme. split; [reflexivity|]. cbn [dataTheme].
  destruct (dataTheme t) as [c|]; [destruct (jseqb c (lit "dark"))|]; auto.
Qed.

Lemma systemThemeChanged_explicit (matches : bool) (t : Theme) :
  storedTheme t = Some (lit "light") \/ storedTheme t = Some (lit "dark") ->
  systemThemeChanged matches t = t.
Proof.
  unfold systemThemeChanged. now intros [-> | ->].
Qed.

(** X19. Once the user has toggled the theme, the choice is explicit and
    stays the user's: after any sequence of toggles and changes of the system
    colour scheme that contains a toggle, the stored theme and the
    [data-theme] attribute agree and are [light] or [dark], and a change of
    the system colour scheme alters nothing. *)
Theorem theme_explicit_after_toggle (before later : list ThemeEvent)
    (t : Theme) :
  let t' := themeRun (before ++ ToggleClick :: later) t in
  storedTheme t' = dataTheme t' /\
  (dataTheme t' = Some (lit "light") \/ dataTheme t' = Some (lit "dark")) /\
  forall matches, systemThemeChanged matches t' = t'.
Proof.
  cbv zeta. unfold themeRun. rewrite fold_left_app. cbn [fold_left themeStep].
  set (t0 := fold_left (fun t1 ev => themeStep ev t1) before t). clearbody t0.
  assert (G : forall l u,
            storedTheme u = dataTheme u /\
            (dataTheme u = Some (lit "light") \/ dataTheme u = Some (lit "dark")) ->
            let u' := fold_left (fun t1 ev => themeStep ev t1) l u in
            storedTheme u' = dataTheme u' /\
            (dataTheme u' = Some (lit "light") \/ dataTheme u' = Some (lit "dark"))).
  { induction l as [|ev l IH]; intros u Hu; [exact Hu|].
    cbn [fold_left]. apply IH. destruct ev as [|m]; cbn [themeStep].
    - apply toggleTheme_explicit.
    - destruct Hu as [E D]. rewrite systemThemeChanged_explicit; [now split|].
      rewrite E. exact D. }
  destruct (G later (toggleTheme t0) (toggleTheme_explicit t0)) as [E D].
  split; [exact E|]. split; [exact D|].
  intros m. apply systemThemeChanged_explicit. rewrite E. exact D.
Qed.

(** X20. On an explicit theme the toggle is an involution that always
    switches: from [dark] it gives [light] and back, from [light] it gives
    [dark] and back. From any other attribute, or none, it gives [dark]. *)
Theorem toggleTheme_switches (t : Theme) :
  (dataTheme t = Some (lit "light") \/ dataTheme t = Some (lit "dark") ->
   dataTheme (toggleTheme t) <> dataTheme t /\
   dataTheme (toggleTheme (toggleTheme t)) = dataTheme t) /\
  (dataTheme t <> Some (lit "dark") ->
   dataTheme (toggleTheme t) = Some (lit "dark") /\
   storedTheme (toggleTheme t) = Some (lit "dark")).
Proof.
  split.
  - intros [E|E]; unfold toggleTheme; cbn [dataTheme]; rewrite E;
      (split; [discriminate|reflexivity]).
  - intros N. unfold toggleTheme. cbn [dataTheme storedTheme].
    destruct (dataTheme t) as [c|]; [|now split].
    destruct (jseqb c (lit "dark")) eqn:E; [|now split].
    apply jseqb_eq in E. congruence.
Qed.

Lemma toggleTheme_switches_witness :
  dataTheme {| storedTheme := None; dataTheme := Some (lit "dark") |}
  = Some (lit "dark") /\
  dataTheme (toggleTheme {| storedTheme := None; dataTheme := Some (lit "dark") |})
  = Some (lit "light") /\
  dataTheme (toggleTheme {| storedTheme := None; dataTheme := None |})
  = Some (lit "dark").
Proof.
  split; [reflexivity|]. split; [reflexivity|].
  apply (proj2 (toggleTheme_switches {| storedTheme := None; dataTheme := None |})).
  discriminate.
Defined.

(** X21. The theme survives a reload and otherwise follows the system. With
    the theme a toggle has stored, initialisation sets the attribute to it
    whatever the system prefers and whatever the attribute was. With nothing
    stored (or the empty string), initialisation sets [dark] when the system
    prefers dark and leaves the attribute alone when it does not, and every
    later change of the system colour scheme sets [dark] or [light]
    accordingly. *)
Theorem initializeTheme_restores (systemPrefersDark : bool)
    (attribute : option jsstring) (t : Theme) :
  dataTheme
    (initializeTheme systemPrefersDark
       {| storedTheme := storedTheme (toggleTheme t); dataTheme := attribute |})
  = dataTheme (toggleTheme t) /\
  (forall stored,
      stored = None \/ stored = Some [] ->
      dataTheme
        (initializeTheme systemPrefersDark
           {| storedTheme := stored; dataTheme := attribute |})
      = (if systemPrefersDark then Some (lit "dark") else attribute) /\
      forall matches,
        dataTheme
          (systemThemeChanged matches
             {| storedTheme := stored; dataTheme := attribute |})
        = Some (if matches then lit "dark" else lit "light")).
Proof.
  split.
  - unfold toggleTheme, initializeTheme. cbn [storedTheme dataTheme].
    destruct (dataTheme t) as [c|]; [destruct (jseqb c (lit "dark"))|];
      reflexivity.
  - intros stored [-> | ->]; split; try reflexivity;
      unfold initializeTheme; cbn; now destruct systemPrefersDark.
Qed.

(** ** Dragging and dropping *)

Lemma drag_run (h : Host) (l : list bool) :
  forall (k : nat) (y : Sys),
    dragCounter (page y) = Z.of_nat k ->
    dropZoneVisible (page y) = negb (Nat.eqb k 0) ->
    forall d, dragDepth k l = Some d ->
    exists y',
      run h (dragEvents l) y = Some y' /\
      dragCounter (page y') = Z.of_nat d /\
      dropZoneVisible (page y') = negb (Nat.eqb d 0) /\
      sameCore (page y) (page y') /\
      messagesArea (page y') = messagesArea (page y) /\
      sends y' = sends y /\ posted y' = posted y /\ readers y' = readers y.
Proof.
  induction l as [|[|] l IH]; intros k y Hc Hv d Hd.
  - injection Hd as <-. exists y. repeat split; assumption.
  - cbn [dragDepth] in Hd. cbn [dragEvents map run step].
    set (y1 := setPage (showDropZone
                          (setDragCounter (dragCounter (page y) + 1)%Z (page y))) y).
    destruct (IH (S k) y1) with (d := d)
      as (y' & R & A & B & C & D & E & F & G).
    + cbn. rewrite Hc. lia.
    + reflexivity.
    + exact Hd.
    + exists y'. split; [exact R|]. split; [exact A|]. split; [exact B|].
      split; [|repeat split; assumption].
      apply (sameCore_trans (page y) (page y1) (page y')); [|exact C].
      repeat split.
  - cbn [dragDepth] in Hd. destruct k as [|k]; [discriminate|].
    cbn [dragEvents map run step].
    set (p1 := setDragCounter (dragCounter (page y) - 1)%Z (page y)).
    set (y1 := setPage (if Z.eqb (dragCounter p1) 0 then hideDropZone p1 else p1) y).
    assert (Hp : dragCounter p1 = Z.of_nat k).
    { subst p1. cbn. rewrite Hc. lia. }
    destruct (IH k y1) with (d := d)
      as (y' & R & A & B & C & D & E & F & G).
    + subst y1. cbn [page setPage]. now destruct (Z.eqb _ _).
    + subst y1. cbn [page setPage]. rewrite Hp.
      destruct k as [|k]; [reflexivity|].
      replace (Z.of_nat (S k) =? 0)%Z with false
        by (symmetry; apply Z.eqb_neq; lia).
      exact Hv.
    + exact Hd.
    + exists y'. split; [exact R|]. split; [exact A|]. split; [exact B|].
      assert (C1 : sameCore (page y) (page y1)).
      { subst y1. cbn [page setPage]. destruct (Z.eqb _ _); repeat split. }
      assert (D1 : messagesArea (page y1) = messagesArea (page y)).
      { subst y1. cbn [page setPage]. now destruct (Z.eqb _ _). }
      split; [exact (sameCore_trans _ _ _ C1 C)|].
      split; [congruence|]. repeat split; assumption.
Qed.

(** X22. The counter makes the overlay follow the drag through nested
    elements. Starting with the counter at zero and the overlay hidden, after
    any sequence of file drags entering and leaving elements (never leaving
    more than were entered) the overlay is visible exactly when some entered
    element has not been left, the counter is the number of those, and the
    messages, the history and the attachment are untouched. *)
Theorem overlay_follows_drag_depth (h : Host) (l : list bool) (d : nat)
    (y : Sys) :
  dragCounter (page y) = 0%Z ->
  dropZoneVisible (page y) = false ->
  dragDepth 0 l = Some d ->
  exists y',
    run h (dragEvents l) y = Some y' /\
    dragCounter (page y') = Z.of_nat d /\
    dropZoneVisible (page y') = negb (Nat.eqb d 0) /\
    messagesArea (page y') = messagesArea (page y) /\
    messageHistory (page y') = messageHistory (page y) /\
    currentImage (page y') = currentImage (page y).
Proof.
  intros Hc Hv Hd.
  destruct (drag_run h l 0 y Hc Hv d Hd)
    as (y' & R & A & B & (_ & _ & c3 & _ & _ & c6) & D & _).
  exists y'. repeat split; assumption.
Qed.

Lemma overlay_follows_drag_depth_witness :
  dragDepth 0 [true; true; false] = Some 1 /\
  dragDepth 0 [true; true; false; false] = Some 0 /\
  (exists y',
      run v8 (dragEvents [true; true; false]) initial = Some y' /\
      dropZoneVisible (page y') = true) /\
  (exists y',
      run v8 (dragEvents [true; true; false; false]) initial = Some y' /\
      dropZoneVisible (page y') = false).
Proof.
  split; [reflexivity|]. split; [reflexivity|]. split.
  - destruct (overlay_follows_drag_depth v8 [true; true; false] 1 initial
                eq_refl eq_refl eq_refl) as (y' & R & _ & V & _).
    exists y'. now split.
  - destruct (overlay_follows_drag_depth v8 [true; true; false; false] 0 initial
                eq_refl eq_refl eq_refl) as (y' & R & _ & V & _).
    exists y'. now split.
Defined.

Lemma handleImageFile_chrome (file : File) (s : Page) :
  dragCounter (fst (handleImageFile file s)) = dragCounter s /\
  dropZoneVisible (fst (handleImageFile file s)) = dropZoneVisible s.
Proof.
  unfold handleImageFile.
  destruct (negb _); [|destruct (N.ltb _ _)]; now split.
Qed.

Lemma dropListener_chrome (files : list File) (y : Sys) :
  dragCounter (page (dropListener files y)) = 0%Z /\
  dropZoneVisible (page (dropListener files y)) = false.
Proof.
  unfold dropListener.
  destruct (withReader_frame
    (handleDrop files (setDragCounter 0%Z (page y))) y) as [_ ->].
  unfold handleDrop. destruct files as [|f fs]; [now split|].
  destruct (startsWith _ _); [|now split].
  destruct (handleImageFile_chrome f
              (hideDropZone (setDragCounter 0%Z (page y)))) as [-> ->].
  now split.
Qed.

(** X23. Every drop ends the drag: whatever is dropped, wherever, and
    whatever the counter was, afterwards the counter is zero and the overlay
    is hidden; the drop itself changes neither the attachment nor the
    history nor the flags. *)
Theorem drop_ends_drag (h : Host) (onOverlay : bool) (files : list File)
    (y : Sys) :
  exists y',
    step h (Drop onOverlay files) y = Some y' /\
    dragCounter (page y') = 0%Z /\
    dropZoneVisible (page y') = false /\
    currentImage (page y') = currentImage (page y) /\
    messageHistory (page y') = messageHistory (page y) /\
    isLoading (page y') = isLoading (page y) /\
    posted y' = posted y.
Proof.
  eexists. split; [reflexivity|].
  destruct (dropListener_core files y) as [(c1 & _ & c3 & _ & _ & c6) P1].
  destruct onOverlay.
  - destruct (dropListener_chrome files (dropListener files y)) as [-> ->].
    destruct (dropListener_core files (dropListener files y))
      as [(d1 & _ & d3 & _ & _ & d6) P2].
    repeat split; congruence.
  - destruct (dropListener_chrome files y) as [-> ->].
    repeat split; assumption.
Qed.

(** X24. A drop on the overlay is handled twice, once by the listener of the
    overlay and once more by the listener of the document it bubbles to. An
    image within the size limit is then read by two readers and an oversized
    one is refused with two bubbles, where a drop elsewhere on the page gives
    one reader or one bubble. *)
Theorem drop_on_overlay_handled_twice (h : Host) (file : File)
    (rest : list File) (y : Sys) :
  startsWith (lit "image/") (type file) = true ->
  exists y1 y2,
    step h (Drop false (file :: rest)) y = Some y1 /\
    step h (Drop true (file :: rest)) y = Some y2 /\
    ((size file <= maxSize)%N ->
       readers y1 = readers y ++ [file] /\
       readers y2 = readers y ++ [file; file] /\
       messagesArea (page y2) = messagesArea (page y)) /\
    ((maxSize < size file)%N ->
       readers y2 = readers y /\
       messagesArea (page y1)
       = messagesArea (page y)
         ++ [ErrorBubble (lit "Image size must be less than 10MB.")] /\
       messagesArea (page y2)
       = messagesArea (page y)
         ++ [ErrorBubble (lit "Image size must be less than 10MB.");
             ErrorBubble (lit "Image size must be less than 10MB.")]).
Proof.
  intros Ht. eexists. eexists. split; [reflexivity|]. split; [reflexivity|].
  assert (E : forall z : Sys,
            dropListener (file :: rest) z
            = withReader
                (handleImageFile file
                   (hideDropZone (setDragCounter 0%Z (page z)))) z).
  { intros z. unfold dropListener, handleDrop. now rewrite Ht. }
  rewrite !E. unfold handleImageFile. rewrite Ht. cbn [negb].
  split.
  - intros Hs. apply N.ltb_ge in Hs. rewrite Hs.
    unfold withReader. cbn. rewrite <- app_assoc. repeat split.
  - intros Hs. apply N.ltb_lt in Hs. rewrite Hs.
    unfold withReader. cbn. rewrite <- app_assoc. repeat split.
Qed.

Lemma drop_on_overlay_handled_twice_witness :
  startsWith (lit "image/") (type hugeFile) = true /\
  (maxSize < size hugeFile)%N /\
  option_map (fun y => messagesArea (page y))
    (step v8 (Drop true [hugeFile]) initial)
  = Some [Welcome true;
          ErrorBubble (lit "Image size must be less than 10MB.");
          ErrorBubble (lit "Image size must be less than 10MB.")].
Proof.
  assert (Hs : (maxSize < size hugeFile)%N) by reflexivity.
  split; [reflexivity|]. split; [exact Hs|].
  destruct (drop_on_overlay_handled_twice v8 hugeFile [] initial eq_refl)
    as (y1 & y2 & _ & S2 & _ & B).
  rewrite S2. cbn [option_map].
  now rewrite (proj2 (proj2 (B Hs))).
Defined.

(** ** Error responses without a usable reason *)

Lemma messagesArea_errorBody (h : Host) (status : nat) (body : result json)
    (s : Page) :
  messagesArea (sendMessage_errorBody h status body s)
  = removeFirstIndicator (messagesArea s)
    ++ [ErrorBubble
          (serializeText
             (lit "Failed to send message: "
              ++ errorMessage h (errorResponseThrown status body)))].
Proof. reflexivity. Qed.

(** X25. A non-2xx response is reported with its status line,
    [Request failed with status N], whenever its body gives no reason: the
    body does not parse, or is not an object, or has no [error] field, or
    has one that is falsy (an empty string, [null], [false], zero). Only the
    body [null] differs: reading its [error] throws, and the bubble carries
    the engine's message for that instead. *)
Theorem error_response_fallback (h : Host) (status : nat) (body : result json)
    (s : Page) :
  ((forall data, body = Ok data ->
      data <> JNull /\
      forall fields, data = JObj fields ->
        truthy_opt (lookup (lit "error") fields) = false) ->
   messagesArea (sendMessage_errorBody h status body s)
   = removeFirstIndicator (messagesArea s)
     ++ [ErrorBubble
           (serializeText
              (lit "Failed to send message: Request failed with status "
               ++ decimal status))]) /\
  (body = Ok JNull ->
   messagesArea (sendMessage_errorBody h status body s)
   = removeFirstIndicator (messagesArea s)
     ++ [ErrorBubble
           (serializeText
              (lit "Failed to send message: "
               ++ nullPropertyMessage h (lit "error")))]) /\
  messageHistory (sendMessage_errorBody h status body s) = messageHistory s /\
  isLoading (sendMessage_errorBody h status body s) = false.
Proof.
  split; [|split; [|split; reflexivity]].
  - intros H. rewrite messagesArea_errorBody.
    assert (E : errorResponseThrown status body
                = ErrorObj (lit "Request failed with status " ++ decimal status)).
    { unfold errorResponseThrown. destruct body as [data|e]; [|reflexivity].
      destruct (H data eq_refl) as [Hn Hf].
      destruct data as [| | | | |fields]; try reflexivity; [congruence|].
      cbn [getField bind]. specialize (Hf fields eq_refl).
      destruct (lookup (lit "error") fields) as [v|]; [|reflexivity].
      cbn [truthy_opt] in Hf. now rewrite Hf. }
    rewrite E. reflexivity.
  - intros ->. reflexivity.
Qed.

Lemma error_response_fallback_witness :
  messagesArea
    (sendMessage_errorBody v8 502
       (Raise (ErrorObj (lit "Unexpected token < in JSON at position 0")))
       (page (after v8 reportRefused)))
  = [Message user None (Some (lit "button is broken"));
     ErrorBubble (lit "Failed to send message: Request failed with status 502")] /\
  messagesArea
    (sendMessage_errorBody v8 500
       (Ok (JObj [(lit "error", JStr [])]))
       (page (after v8 reportRefused)))
  = [Message user None (Some (lit "button is broken"));
     ErrorBubble (lit "Failed to send message: Request failed with status 500")].
Proof.
  split.
  - refine (eq_trans
      (proj1 (error_response_fallback v8 502
                (Raise (ErrorObj (lit "Unexpected token < in JSON at position 0")))
                (page (after v8 reportRefused))) _) _).
    + intros data E. discriminate.
    + vm_compute. reflexivity.
  - refine (eq_trans
      (proj1 (error_response_fallback v8 500
                (Ok (JObj [(lit "error", JStr [])]))
                (page (after v8 reportRefused))) _) _).
    + intros data E. injection E as <-. split; [discriminate|].
      intros fields F. injection F as <-. reflexivity.
    + vm_compute. reflexivity.
Defined.
